(** * Keyword rank monitor: scheduler and change detection

    A shallow embedding of [monitor/scheduler.py] (class [KeywordMonitor])
    and of the part of [monitor/db.py] (class [MongoDBHandler]) it calls,
    followed by the properties of the rank checker, the change detector
    and the scheduling loop.

    Conventions of the embedding:
    - a Python value read out of a JSON dictionary is a [value]
      ([None], an integer or a string); a dictionary with string keys is
      a [gmap string value]; [d.get(k)] is [py_get d k];
    - the monitor object is the record [KeywordMonitor]; the collection
      behind the handler, the clock and everything the program prints or
      does to the outside live next to it in [state];
    - a method is a function [state -> result A * state]: Python keeps
      every mutation made before an exception is raised, so the state is
      returned on both outcomes;
    - the collaborators (SerpApi, MongoDB, the wall clock, the caller of
      [stop()]) are an [environment] of oracles indexed by the number of
      earlier calls, together with what the platform fixes. *)

From Stdlib Require Import String Ascii List ZArith Lia Bool Sorted Permutation.
From stdpp Require Import base gmap strings list.

Import ListNotations.
Local Open Scope Z_scope.
Local Open Scope nat_scope.

(** ** Python values *)

Inductive value : Type :=
| VNone
| VInt (z : Z)
| VStr (s : string).

#[global] Instance value_eq_dec : EqDecision value.
Proof. solve_decision. Defined.

(** [a != b] on values. *)
Definition py_ne (a b : value) : bool := negb (bool_decide (a = b)).

(** [d.get(k)]: the value under [k], [None] when the key is absent. *)
Definition py_get (d : gmap string value) (k : string) : value :=
  default VNone (d !! k).

(** Exceptions (instances of Python's [Exception]). *)
Inductive exn : Type :=
| ValueError (msg : string)
| TypeError (msg : string)
| ProviderError (msg : string)      (* raised inside the serpapi client *)
| PersistenceError (msg : string)   (* raised inside pymongo *)
| CallbackError (msg : string)      (* raised by the registered listener *)
| KeyError (key : string)
| IndexError (msg : string)
| OverflowError (msg : string).

Inductive result (A : Type) : Type :=
| Ok (a : A)
| Raise (e : exn).
Arguments Ok {A} a.
Arguments Raise {A} e.

(** ** Substring test: [needle in hay] on [str] *)

Fixpoint str_prefix (p s : string) : bool :=
  match p, s with
  | EmptyString, _ => true
  | String a p', String b s' => if Ascii.eqb a b then str_prefix p' s' else false
  | String _ _, EmptyString => false
  end.

Fixpoint str_contains (needle hay : string) : bool :=
  str_prefix needle hay ||
  match hay with
  | EmptyString => false
  | String _ hay' => str_contains needle hay'
  end.

(** [needle in container]: defined on strings only, a [TypeError]
    on [None] and on integers. *)
Definition py_in (needle : string) (container : value) : result bool :=
  match container with
  | VStr s => Ok (str_contains needle s)
  | VNone => Raise (TypeError "argument of type 'NoneType' is not iterable")
  | VInt _ => Raise (TypeError "argument of type 'int' is not iterable")
  end.

(** ** Data model *)

(** What [GoogleSearch(params).get_dict()] returns: a dictionary of which
    the monitor reads two keys. [other_keys] tells whether the dictionary
    holds any further key ([search_metadata], [error], ...), which decides
    its truth value when both known keys are absent. *)
Record response : Type := {
  organic_results : option (list (gmap string value));
  search_information : option (gmap string value);
  other_keys : bool
}.

(** The literal [{}]. *)
Definition empty_response : response :=
  {| organic_results := None; search_information := None; other_keys := false |}.

(** [not results]. *)
Definition resp_is_empty (r : response) : bool :=
  match organic_results r, search_information r with
  | None, None => negb (other_keys r)
  | _, _ => false
  end.

(** [results.get('search_information', {}).get('total_results')]. *)
Definition resp_total_results (r : response) : value :=
  py_get (default ∅ (search_information r)) "total_results".

(** The dictionary built by [check_domain_ranking]. *)
Record ranking_data : Type := {
  found : bool;
  position : value;
  link : value;
  title : value;
  snippet : value;
  total_results : value;
  rd_search_params : gmap string value
}.

(** A document of the [keyword_rankings] collection. *)
Record document : Type := {
  d_keyword : string;
  d_domain : string;
  d_timestamp : nat;
  d_position : value;
  d_link : value;
  d_title : value;
  d_snippet : value;
  d_found : bool;
  d_total_results : value;
  d_search_params : gmap string value
}.

(** The dictionary handed to the change listener. *)
Record change_info : Type := {
  ci_keyword : string;
  ci_domain : string;
  previous_position : value;
  current_position : value;
  ci_timestamp : nat
}.

(** Lines written to standard output, by what they report. *)
Inductive message : Type :=
| MsgConfigured (n_keywords n_domains : nat)
| MsgInterval (minutes : Z)
| MsgSearchError (keyword : string) (e : exn)
| MsgChecking (keyword domain : string)
| MsgFound (pos lnk : value)
| MsgNotFound (domain : string)
| MsgCycleStart (at_time : nat)
| MsgCycleEnd (at_time : nat)
| MsgSaved (keyword domain : string) (inserted_id : nat)
| MsgRankingChanged (info : change_info)
| MsgLoopError (e : exn)
| MsgAlreadyRunning
| MsgInitialCheck
| MsgStarted (minutes : Z)
| MsgNotRunning
| MsgStopping
| MsgStopped.

(** Everything observable, in program order. *)
Inductive event : Type :=
| EvPrint (m : message)
| EvSearch (params : gmap string value)     (* the network call *)
| EvInsert (keyword domain : string)        (* collection.insert_one *)
| EvFind (keyword domain : string) (limit : nat)
| EvCallback (info : change_info)           (* the listener is invoked *)
| EvSleep (seconds : Z)                     (* time.sleep *)
| EvWait (seconds : Z)                      (* stop_event.wait *)
| EvThreadStart (tid : nat)
| EvThreadJoin (tid : nat) (timeout : Z).

(** A listener either returns or raises. *)
Definition callback : Type := change_info -> option exn.

Record KeywordMonitor : Type := {
  api_key : string;
  interval_minutes : Z;
  keywords : list string;
  domains : list string;
  search_params : gmap string value;
  running : bool;
  thread : option nat;
  stop_event : bool;          (* the flag of the [Event] object *)
  on_change_callback : option callback
}.

(** [KeywordMonitor.__init__]. *)
Definition init (key : string) (minutes : Z) : KeywordMonitor :=
  {| api_key := key; interval_minutes := minutes;
     keywords := []; domains := []; search_params := ∅;
     running := false; thread := None; stop_event := false;
     on_change_callback := None |}.

Record state : Type := {
  self : KeywordMonitor;
  collection : list document;   (* [self.db.collection], in insertion order *)
  clock : nat;                  (* readings of [datetime.now()] made so far *)
  trace : list event;           (* oldest event first *)
  n_search : nat;               (* calls made to the provider *)
  n_insert : nat;               (* calls made to [insert_one] *)
  n_find : nat;                 (* calls made to [find] *)
  n_observe : nat;              (* times the loop looked at the stop flag *)
  n_threads : nat               (* threads started so far *)
}.

Definition initial_state (key : string) (minutes : Z) : state :=
  {| self := init key minutes; collection := []; clock := 0; trace := [];
     n_search := 0; n_insert := 0; n_find := 0; n_observe := 0; n_threads := 0 |}.

(** The collaborators. Each oracle is indexed by the number of calls made
    before the one it answers. *)
Record environment : Type := {
  (* [GoogleSearch(params).get_dict()] *)
  serp_api : nat -> gmap string value -> result response;
  (* does this [insert_one] fail? *)
  insert_one_outcome : nat -> option exn;
  (* does this [find] fail? *)
  find_outcome : nat -> option exn;
  (* has another execution context called [stop()] since the loop last
     looked at the stop flag? *)
  stop_requested : nat -> bool;
  (* what [datetime.now()] reads, in the precision the store keeps: the
     wall clock, whose readings may tie or step back *)
  wall_clock : nat -> nat;
  (* does the driver refuse to encode this document (an integer outside
     64 bits, a document too large, ...)? *)
  document_refused : document -> option exn;
  (* [threading.TIMEOUT_MAX], in seconds *)
  timeout_max : Z
}.

(** ** The monad of methods *)

Definition M (A : Type) : Type := state -> result A * state.

Definition ret {A} (a : A) : M A := fun s => (Ok a, s).

Definition bind {A B} (c : M A) (k : A -> M B) : M B :=
  fun s => match c s with
           | (Ok a, s') => k a s'
           | (Raise e, s') => (Raise e, s')
           end.

Definition raise {A} (e : exn) : M A := fun s => (Raise e, s).

(** [try: c  except Exception as e: h e]. *)
Definition try_except {A} (c : M A) (h : exn -> M A) : M A :=
  fun s => match c s with
           | (Ok a, s') => (Ok a, s')
           | (Raise e, s') => h e s'
           end.

Definition gets {A} (f : state -> A) : M A := fun s => (Ok (f s), s).

Definition modify (f : state -> state) : M unit := fun s => (Ok tt, f s).

Declare Scope monad_scope.
Delimit Scope monad_scope with monad.
Notation "x <- c ;; k" := (bind c (fun x => k))
  (at level 100, c at next level, right associativity) : monad_scope.
Notation "c ;; k" := (bind c (fun _ => k))
  (at level 100, right associativity) : monad_scope.
Local Open Scope monad_scope.

Definition set_self (f : KeywordMonitor -> KeywordMonitor) (s : state) : state :=
  {| self := f (self s); collection := collection s; clock := clock s;
     trace := trace s; n_search := n_search s; n_insert := n_insert s;
     n_find := n_find s; n_observe := n_observe s; n_threads := n_threads s |}.

Definition emit (e : event) : M unit :=
  modify (fun s =>
    {| self := self s; collection := collection s; clock := clock s;
       trace := trace s ++ [e]; n_search := n_search s; n_insert := n_insert s;
       n_find := n_find s; n_observe := n_observe s; n_threads := n_threads s |}).

Definition print (m : message) : M unit := emit (EvPrint m).

(** [datetime.now()]: the next reading of the wall clock. *)
Definition datetime_now (E : environment) : M nat :=
  fun s => (Ok (wall_clock E (clock s)),
    {| self := self s; collection := collection s; clock := S (clock s);
       trace := trace s; n_search := n_search s; n_insert := n_insert s;
       n_find := n_find s; n_observe := n_observe s; n_threads := n_threads s |}).

(** [time.sleep(seconds)]. *)
Definition time_sleep (seconds : Z) : M unit := emit (EvSleep seconds).

(** [for x in l: body x]; an exception raised by the body leaves the loop. *)
Fixpoint for_each {A} (l : list A) (body : A -> M unit) : M unit :=
  match l with
  | [] => ret tt
  | x :: l' => body x ;; for_each l' body
  end.

(** ** [monitor/db.py]: the handler's operations used by the scheduler *)

Section Program.

Variable E : environment.

(** [collection.insert_one(document)]: the call fails on the way to the
    store, or the driver refuses the document, or the document is
    appended and its identifier handed back. *)
Definition insert_one (doc : document) : M nat :=
  fun s =>
    let s1 :=
      {| self := self s; collection := collection s; clock := clock s;
         trace := trace s ++ [EvInsert (d_keyword doc) (d_domain doc)];
         n_search := n_search s; n_insert := S (n_insert s);
         n_find := n_find s; n_observe := n_observe s; n_threads := n_threads s |} in
    match insert_one_outcome E (n_insert s) with
    | Some e => (Raise e, s1)
    | None =>
        match document_refused E doc with
        | Some e => (Raise e, s1)
        | None =>
            (Ok (length (collection s)),
             {| self := self s1; collection := collection s1 ++ [doc];
                clock := clock s1;
                trace := trace s1; n_search := n_search s1; n_insert := n_insert s1;
                n_find := n_find s1; n_observe := n_observe s1;
                n_threads := n_threads s1 |})
        end
    end.

(** [MongoDBHandler.save_ranking]. *)
Definition save_ranking (keyword domain : string) (rd : ranking_data) : M nat :=
  now <- datetime_now E ;;
  let document :=
    {| d_keyword := keyword; d_domain := domain; d_timestamp := now;
       d_position := position rd; d_link := link rd; d_title := title rd;
       d_snippet := snippet rd; d_found := found rd;
       d_total_results := total_results rd;
       d_search_params := rd_search_params rd |} in
  inserted_id <- insert_one document ;;
  print (MsgSaved keyword domain inserted_id) ;;
  ret inserted_id.

(** The filter [{"keyword": keyword, "domain": domain}]. *)
Definition matches_key (keyword domain : string) (doc : document) : bool :=
  bool_decide (d_keyword doc = keyword) && bool_decide (d_domain doc = domain).

(** [.sort("timestamp", DESCENDING)]: most recent first. *)
Fixpoint insert_desc (doc : document) (l : list document) : list document :=
  match l with
  | [] => [doc]
  | x :: l' =>
      if d_timestamp x <=? d_timestamp doc then doc :: x :: l'
      else x :: insert_desc doc l'
  end.

Definition sort_desc (l : list document) : list document :=
  fold_right insert_desc [] l.

(** What the cursor [find(...).sort(...).limit(limit)] yields. *)
Definition find_sorted (keyword domain : string) (limit : nat)
    (docs : list document) : list document :=
  firstn limit (sort_desc (List.filter (matches_key keyword domain) docs)).

(** [MongoDBHandler.get_ranking_history]. *)
Definition get_ranking_history (keyword domain : string) (limit : nat)
    : M (list document) :=
  fun s =>
    let s1 :=
      {| self := self s; collection := collection s; clock := clock s;
         trace := trace s ++ [EvFind keyword domain limit];
         n_search := n_search s; n_insert := n_insert s;
         n_find := S (n_find s); n_observe := n_observe s; n_threads := n_threads s |} in
    match find_outcome E (n_find s) with
    | Some e => (Raise e, s1)
    | None => (Ok (find_sorted keyword domain limit (collection s)), s1)
    end.

(** ** [monitor/scheduler.py] *)

(** The defaults of [configure]. *)
Definition default_search_params : gmap string value :=
  <["engine" := VStr "google"]>
  (<["google_domain" := VStr "google.com"]>
  (<["gl" := VStr "us"]>
  (<["hl" := VStr "en"]>
  (<["location" := VStr "United States"]> ∅)))).

(** [KeywordMonitor.configure]: a key given by the caller overrides the
    default under the same key. [params] is the dictionary bound to
    [**search_params]; Python never binds the names [self], [keywords]
    and [domains] into it. *)
Definition configure (kws doms : list string) (params : gmap string value)
    : M unit :=
  modify (set_self (fun m =>
    {| api_key := api_key m; interval_minutes := interval_minutes m;
       keywords := kws; domains := doms;
       search_params := params ∪ default_search_params;
       running := running m; thread := thread m; stop_event := stop_event m;
       on_change_callback := on_change_callback m |})) ;;
  print (MsgConfigured (length kws) (length doms)) ;;
  minutes <- gets (fun s => interval_minutes (self s)) ;;
  print (MsgInterval minutes).

(** [GoogleSearch(params).get_dict()]. *)
Definition google_search (params : gmap string value) : M response :=
  fun s =>
    (serp_api E (n_search s) params,
     {| self := self s; collection := collection s; clock := clock s;
        trace := trace s ++ [EvSearch params];
        n_search := S (n_search s); n_insert := n_insert s;
        n_find := n_find s; n_observe := n_observe s; n_threads := n_threads s |}).

(** The dictionary [{"api_key": ..., "q": keyword, **self.search_params}]:
    the configured parameters come last and win on a shared key. *)
Definition search_request (m : KeywordMonitor) (keyword : string)
    : gmap string value :=
  search_params m ∪ <["api_key" := VStr (api_key m)]> (<["q" := VStr keyword]> ∅).

(** [KeywordMonitor.search_keyword]. *)
Definition search_keyword (keyword : string) : M response :=
  m <- gets self ;;
  let params := search_request m keyword in
  try_except
    (google_search params)
    (fun e => print (MsgSearchError keyword e) ;; ret empty_response).

Definition not_found_data (results : response) (sp : gmap string value)
    : ranking_data :=
  {| found := false; position := VNone; link := VNone; title := VNone;
     snippet := VNone; total_results := resp_total_results results;
     rd_search_params := sp |}.

Definition found_data (results : response) (sp : gmap string value)
    (r : gmap string value) : ranking_data :=
  {| found := true; position := py_get r "position"; link := py_get r "link";
     title := py_get r "title"; snippet := py_get r "snippet";
     total_results := resp_total_results results;
     rd_search_params := sp |}.

(** The loop [for result in results['organic_results']] of
    [check_domain_ranking], with the statements that follow it. *)
Fixpoint scan_results (domain : string) (results : response)
    (sp : gmap string value) (l : list (gmap string value)) : M ranking_data :=
  match l with
  | [] =>
      print (MsgNotFound domain) ;;
      ret (not_found_data results sp)
  | r :: l' =>
      match r !! "link" with
      | None => scan_results domain results sp l'
      | Some lnk =>
          match py_in domain lnk with
          | Raise e => raise e
          | Ok true =>
              print (MsgFound (py_get r "position") (py_get r "link")) ;;
              ret (found_data results sp r)
          | Ok false => scan_results domain results sp l'
          end
      end
  end.

(** [KeywordMonitor.check_domain_ranking]. *)
Definition check_domain_ranking (keyword domain : string) : M ranking_data :=
  print (MsgChecking keyword domain) ;;
  results <- search_keyword keyword ;;
  sp <- gets (fun s => search_params (self s)) ;;
  if resp_is_empty results || negb (bool_decide (is_Some (organic_results results)))
  then ret (not_found_data results sp)
  else
    match organic_results results with
    | Some l => scan_results domain results sp l
    | None => raise (KeyError "organic_results")
    end.

(** [KeywordMonitor._check_changes]. *)
Definition _check_changes (keyword domain : string) (current_data : ranking_data)
    : M unit :=
  history <- get_ranking_history keyword domain 2 ;;
  if 2 <=? length history then
    match history !! 1 with
    | None => raise (IndexError "list index out of range")
    | Some previous =>
        let current_pos := position current_data in
        let previous_pos := d_position previous in
        if py_ne current_pos previous_pos then
          now <- datetime_now E ;;
          let info :=
            {| ci_keyword := keyword; ci_domain := domain;
               previous_position := previous_pos;
               current_position := current_pos;
               ci_timestamp := now |} in
          print (MsgRankingChanged info) ;;
          cb <- gets (fun s => on_change_callback (self s)) ;;
          match cb with
          | Some f =>
              emit (EvCallback info) ;;
              match f info with
              | Some e => raise e
              | None => ret tt
              end
          | None => ret tt
          end
        else ret tt
    end
  else ret tt.

(** [KeywordMonitor.on_change]. *)
Definition on_change (f : callback) : M unit :=
  modify (set_self (fun m =>
    {| api_key := api_key m; interval_minutes := interval_minutes m;
       keywords := keywords m; domains := domains m;
       search_params := search_params m;
       running := running m; thread := thread m; stop_event := stop_event m;
       on_change_callback := Some f |})).

(** The body of the two nested loops of [check_all]. *)
Definition check_pair (keyword domain : string) : M unit :=
  rd <- check_domain_ranking keyword domain ;;
  save_ranking keyword domain rd ;;
  _check_changes keyword domain rd ;;
  time_sleep 1.

(** [KeywordMonitor.check_all]. *)
Definition check_all : M unit :=
  t0 <- datetime_now E ;;
  print (MsgCycleStart t0) ;;
  kws <- gets (fun s => keywords (self s)) ;;
  for_each kws (fun keyword =>
    doms <- gets (fun s => domains (self s)) ;;
    for_each doms (fun domain => check_pair keyword domain)) ;;
  t1 <- datetime_now E ;;
  print (MsgCycleEnd t1).

(** The stop flag is shared with whoever calls [stop()] from another
    execution context. Each time the loop looks at the flag it first sees
    what that context did in the meantime: [stop()] clears [running] and
    sets the flag. *)
Definition observe_stop : M unit :=
  fun s =>
    let m := self s in
    (Ok tt,
     {| self :=
          if stop_requested E (n_observe s) then
            {| api_key := api_key m; interval_minutes := interval_minutes m;
               keywords := keywords m; domains := domains m;
               search_params := search_params m;
               running := false; thread := thread m; stop_event := true;
               on_change_callback := on_change_callback m |}
          else m;
        collection := collection s; clock := clock s; trace := trace s;
        n_search := n_search s; n_insert := n_insert s; n_find := n_find s;
        n_observe := S (n_observe s); n_threads := n_threads s |}).

(** [self.stop_event.is_set()]. *)
Definition stop_event_is_set : M bool :=
  observe_stop ;;
  gets (fun s => stop_event (self s)).

(** [self.stop_event.wait(timeout)]: returns at once when the flag is
    already set; otherwise a timeout above [threading.TIMEOUT_MAX] is an
    [OverflowError], and any other timeout is waited out. *)
Definition stop_event_wait (timeout : Z) : M bool :=
  emit (EvWait timeout) ;;
  observe_stop ;;
  flag <- gets (fun s => stop_event (self s)) ;;
  if flag then ret true
  else if (timeout_max E <? timeout)%Z
       then raise (OverflowError "timeout value is too large")
       else ret false.

(** How a bounded run of the loop ends: the loop returned, or it was
    still going when the bound was reached. *)
Inductive loop_status : Type :=
| Returned
| StillRunning.

(** [KeywordMonitor._monitor_loop], run for at most [fuel] iterations. *)
Fixpoint _monitor_loop (fuel : nat) : M loop_status :=
  match fuel with
  | 0 => ret StillRunning
  | S fuel' =>
      stopped <- stop_event_is_set ;;
      if stopped then ret Returned
      else
        try_except check_all (fun e => print (MsgLoopError e)) ;;
        minutes <- gets (fun s => interval_minutes (self s)) ;;
        stop_event_wait (minutes * 60) ;;
        _monitor_loop fuel'
  end.

(** [Thread(target=self._monitor_loop, daemon=True)] and [thread.start()]. *)
Definition thread_start : M unit :=
  fun s =>
    let m := self s in
    let tid := n_threads s in
    (Ok tt,
     {| self :=
          {| api_key := api_key m; interval_minutes := interval_minutes m;
             keywords := keywords m; domains := domains m;
             search_params := search_params m;
             running := running m; thread := Some tid;
             stop_event := stop_event m;
             on_change_callback := on_change_callback m |};
        collection := collection s; clock := clock s;
        trace := trace s ++ [EvThreadStart tid];
        n_search := n_search s; n_insert := n_insert s; n_find := n_find s;
        n_observe := n_observe s; n_threads := S (n_threads s) |}).

(** [self.running = r] together with [self.stop_event.clear()] or
    [.set()]. *)
Definition set_running_and_flag (r flag : bool) : M unit :=
  modify (set_self (fun m =>
    {| api_key := api_key m; interval_minutes := interval_minutes m;
       keywords := keywords m; domains := domains m;
       search_params := search_params m;
       running := r; thread := thread m; stop_event := flag;
       on_change_callback := on_change_callback m |})).

(** [not l] on a list. *)
Definition is_nil {A} (l : list A) : bool :=
  match l with [] => true | _ => false end.

(** [KeywordMonitor.start], up to and including the start of the thread. *)
Definition start (run_immediately : bool) : M unit :=
  r <- gets (fun s => running (self s)) ;;
  if r then print MsgAlreadyRunning
  else
    kws <- gets (fun s => keywords (self s)) ;;
    doms <- gets (fun s => domains (self s)) ;;
    if is_nil kws || is_nil doms
    then raise (ValueError "Please configure keywords and domains first")
    else
      set_running_and_flag true false ;;
      (if run_immediately then print MsgInitialCheck ;; check_all else ret tt) ;;
      thread_start ;;
      minutes <- gets (fun s => interval_minutes (self s)) ;;
      print (MsgStarted minutes).

(** [KeywordMonitor.stop]. *)
Definition stop : M unit :=
  r <- gets (fun s => running (self s)) ;;
  if negb r then print MsgNotRunning
  else
    print MsgStopping ;;
    set_running_and_flag false true ;;
    th <- gets (fun s => thread (self s)) ;;
    match th with
    | Some tid => emit (EvThreadJoin tid 5)
    | None => ret tt
    end ;;
    print MsgStopped.

(** [KeywordMonitor.run_once]. *)
Definition run_once : M unit := check_all.

(** [start] followed by what the thread it started does: the thread runs
    [_monitor_loop]; when [start] returns without starting a thread there
    is nothing to run. *)
Definition start_then_loop (run_immediately : bool) (fuel : nat)
    : M (option loop_status) :=
  before <- gets n_threads ;;
  start run_immediately ;;
  after <- gets n_threads ;;
  if before <? after
  then st <- _monitor_loop fuel ;; ret (Some st)
  else ret None.

End Program.

(** ** [monitor/db.py]: the read of the latest observation *)

(** [MongoDBHandler.get_latest_ranking]: [find_one] with the filter of
    [get_ranking_history] and the same ordering; the first document of
    the cursor, [None] when it has none. *)
Definition get_latest_ranking (E : environment) (keyword domain : string)
    : M (option document) :=
  fun s =>
    let s1 :=
      {| self := self s; collection := collection s; clock := clock s;
         trace := trace s ++ [EvFind keyword domain 1];
         n_search := n_search s; n_insert := n_insert s;
         n_find := S (n_find s); n_observe := n_observe s; n_threads := n_threads s |} in
    match find_outcome E (n_find s) with
    | Some e => (Raise e, s1)
    | None =>
        (Ok (head (sort_desc (List.filter (matches_key keyword domain) (collection s)))),
         s1)
    end.

(** * Vocabulary of the statements *)

(** [needle] occurs in [hay] as a contiguous run of characters. *)
Definition is_substring (needle hay : string) : Prop :=
  exists before after, hay = before +:+ needle +:+ after.

(** [newer_first a b]: [a] may stand before [b] in a history. *)
Definition newer_first (a b : document) : Prop :=
  d_timestamp b <= d_timestamp a.

(** The link of a result, when it has one, is a string. *)
Definition link_is_string (r : gmap string value) : Prop :=
  forall v, r !! "link" = Some v -> exists lnk, v = VStr lnk.

(** The result has no link in which the domain occurs. *)
Definition no_match (domain : string) (r : gmap string value) : Prop :=
  forall lnk, r !! "link" = Some (VStr lnk) -> ~ is_substring domain lnk.

(** The observations stored for a key, in insertion order. *)
Definition stored_for (keyword domain : string) (docs : list document)
    : list document :=
  List.filter (matches_key keyword domain) docs.

(** The same observations, most recent first: position [0] is the latest,
    position [1] the baseline. *)
Definition history_of (keyword domain : string) (docs : list document)
    : list document :=
  sort_desc (stored_for keyword domain docs).

(** The keyword-domain pairs of a cycle, in the order [check_all] visits
    them: keywords outermost. *)
Definition all_pairs (m : KeywordMonitor) : list (string * string) :=
  list_prod (keywords m) (domains m).

(** [check_pair] over a list of pairs, one after the other. *)
Definition run_pairs (E : environment) (pairs : list (string * string)) : M unit :=
  for_each pairs (fun p => check_pair E p.1 p.2).

(** The state of a cycle once its opening banner is printed. *)
Definition cycle_opened (E : environment) (s : state) : state :=
  snd ((t0 <- datetime_now E ;; print (MsgCycleStart t0)) s).

(** The pairs a trace shows as taken up, in order. *)
Fixpoint checked_pairs (l : list event) : list (string * string) :=
  match l with
  | [] => []
  | EvPrint (MsgChecking keyword domain) :: l' => (keyword, domain) :: checked_pairs l'
  | _ :: l' => checked_pairs l'
  end.

(** The ranking changes a trace shows as reported, as pairs of previous
    and current position. *)
Fixpoint reported_changes (l : list event) : list (value * value) :=
  match l with
  | [] => []
  | EvPrint (MsgRankingChanged info) :: l' =>
      (previous_position info, current_position info) :: reported_changes l'
  | _ :: l' => reported_changes l'
  end.

(** The errors a trace shows as reported. *)
Fixpoint reported_errors (l : list event) : list exn :=
  match l with
  | [] => []
  | EvPrint (MsgSearchError _ e) :: l' => e :: reported_errors l'
  | EvPrint (MsgLoopError e) :: l' => e :: reported_errors l'
  | _ :: l' => reported_errors l'
  end.

(** Events that belong to the inside of a cycle: anything but the opening
    banner of a cycle, the loop's wait and error report, and what [start]
    itself prints or does. *)
Definition inside_cycle (e : event) : Prop :=
  match e with
  | EvWait _ | EvThreadStart _ | EvThreadJoin _ _ => False
  | EvPrint (MsgCycleStart _) | EvPrint (MsgLoopError _)
  | EvPrint MsgInitialCheck | EvPrint (MsgStarted _)
  | EvPrint MsgAlreadyRunning => False
  | _ => True
  end.

(** A step that leaves the monitor object, the stop flag and the threads
    alone and only adds events of the inside of a cycle. *)
Definition keeps_monitor (s s' : state) : Prop :=
  self s' = self s /\ n_observe s' = n_observe s /\ n_threads s' = n_threads s
  /\ exists delta, trace s' = trace s ++ delta /\ Forall inside_cycle delta.

(** A computation all of whose runs are such steps. *)
Definition quiet {A} (c : M A) : Prop :=
  forall s r s', c s = (r, s') -> keeps_monitor s s'.

(** [c] is one whole cycle from [s] to [s']: its opening banner followed
    by events of the inside of a cycle. *)
Definition one_cycle (E : environment) (s s' : state) (c : list event)
    : Prop :=
  trace s' = trace s ++ c
  /\ exists delta,
       c = EvPrint (MsgCycleStart (wall_clock E (clock s))) :: delta
       /\ Forall inside_cycle delta.

(** The state the loop is in once a cycle has ended with outcome [r]: an
    error is reported, a normal end is not. *)
Definition after_cycle (r : result unit) (s : state) : state :=
  match r with
  | Ok _ => s
  | Raise e => snd (print (MsgLoopError e) s)
  end.

(** The seconds the loop asks to wait between two cycles. *)
Definition wait_timeout (m : KeywordMonitor) : Z := interval_minutes m * 60.

(** The state the loop is in once its call of the wait is over. *)
Definition after_wait (E : environment) (s : state) : state :=
  snd (stop_event_wait E (interval_minutes (self s) * 60) s).

(** The wait called in [s] raises: the stop flag is still clear and the
    timeout exceeds what the platform can time. *)
Definition wait_overflows (E : environment) (s : state) : bool :=
  negb (stop_event (self (after_wait E s)))
  && (timeout_max E <? wait_timeout (self s))%Z.


(** The error of a wait the platform cannot time. *)
Definition wait_error : exn := OverflowError "timeout value is too large".

(** How many cycles a trace shows as begun. *)
Fixpoint cycle_starts (l : list event) : nat :=
  match l with
  | [] => 0
  | EvPrint (MsgCycleStart _) :: l' => S (cycle_starts l')
  | _ :: l' => cycle_starts l'
  end.

(** How many times a trace shows the loop waiting for the next cycle. *)
Fixpoint waits (l : list event) : nat :=
  match l with
  | [] => 0
  | EvWait _ :: l' => S (waits l')
  | _ :: l' => waits l'
  end.


(** The state in which [start(run_immediately=True)] begins its initial
    check: [running] is set, the stop flag is clear and the check is
    announced. *)
Definition initial_check_begins (s : state) : state :=
  snd ((set_running_and_flag true false ;; print MsgInitialCheck) s).


(** The key a document is stored under. *)
Definition document_key (doc : document) : string * string :=
  (d_keyword doc, d_domain doc).

(** [doc] is the document [save_ranking] builds for [rd] under the key. *)
Definition records (doc : document) (keyword domain : string)
    (rd : ranking_data) : Prop :=
  d_keyword doc = keyword /\ d_domain doc = domain
  /\ d_position doc = position rd /\ d_link doc = link rd
  /\ d_title doc = title rd /\ d_snippet doc = snippet rd
  /\ d_found doc = found rd /\ d_total_results doc = total_results rd
  /\ d_search_params doc = rd_search_params rd.

(** The document [save_ranking] builds for [rd] when the clock reads
    [now]. *)
Definition saved_document (keyword domain : string) (now : nat)
    (rd : ranking_data) : document :=
  {| d_keyword := keyword; d_domain := domain; d_timestamp := now;
     d_position := position rd; d_link := link rd; d_title := title rd;
     d_snippet := snippet rd; d_found := found rd;
     d_total_results := total_results rd;
     d_search_params := rd_search_params rd |}.

(** Every timestamp stored under the key is earlier than [now]. *)
Definition later_than_stored (keyword domain : string) (now : nat)
    (docs : list document) : Prop :=
  Forall (fun doc => d_timestamp doc < now) (stored_for keyword domain docs).

(** A step that only appends to the store. *)
Definition store_grows (s s' : state) : Prop :=
  exists added, collection s' = collection s ++ added.

(** A step that leaves the store and the counts of probes and writes
    alone. *)
Definition store_idle (s s' : state) : Prop :=
  collection s' = collection s
  /\ n_search s' = n_search s /\ n_insert s' = n_insert s.

(** Every run of [c] is related by [R]. *)
Definition preserves {A} (R : state -> state -> Prop) (c : M A) : Prop :=
  forall s r s', c s = (r, s') -> R s s'.

(** The store takes every write, whatever the document, and answers
    every query, and the links the provider returns are strings. The
    provider itself may fail. *)
Definition dependable (E : environment) : Prop :=
  (forall n, insert_one_outcome E n = None)
  /\ (forall doc, document_refused E doc = None)
  /\ (forall n, find_outcome E n = None)
  /\ (forall n params resp l,
        serp_api E n params = Ok resp ->
        organic_results resp = Some l -> Forall link_is_string l).

(** The registered listener, if there is one, returns normally. *)
Definition listener_returns (m : KeywordMonitor) : Prop :=
  forall f info, on_change_callback m = Some f -> f info = None.

(** ** Sample collaborators and monitors *)

Module Sample.

(** Two organic results; the second one is on [d.com], at [pos]. *)
Definition two_results (pos : Z) : response :=
  {| organic_results :=
       Some [ <["link" := VStr "https://other.org/"]> (<["position" := VInt 1]> ∅);
              <["link" := VStr "https://d.com/x"]> (<["position" := VInt pos]> ∅) ];
     search_information := Some (<["total_results" := VInt 1000]> ∅);
     other_keys := true |}.

(** A result on [d.com] that reports no position. *)
Definition unranked_result : response :=
  {| organic_results := Some [ <["link" := VStr "https://d.com/"]> ∅ ];
     search_information := None;
     other_keys := true |}.

(** Everything works; the site moves from position 3 to position 1 and
    nobody asks the monitor to stop. *)
Definition healthy : environment :=
  {| serp_api := fun n _ => match n with 0 => Ok (two_results 3) | _ => Ok (two_results 1) end;
     insert_one_outcome := fun _ => None;
     find_outcome := fun _ => None;
     stop_requested := fun _ => false;
     wall_clock := fun n => n;
     document_refused := fun _ => None;
     timeout_max := 9223372036 |}.

(** The provider is unreachable. *)
Definition provider_down : environment :=
  {| serp_api := fun _ _ => Raise (ProviderError "connection refused");
     insert_one_outcome := fun _ => None;
     find_outcome := fun _ => None;
     stop_requested := fun _ => false;
     wall_clock := fun n => n;
     document_refused := fun _ => None;
     timeout_max := 9223372036 |}.

(** The provider leaves the position out. *)
Definition provider_unranked : environment :=
  {| serp_api := fun _ _ => Ok unranked_result;
     insert_one_outcome := fun _ => None;
     find_outcome := fun _ => None;
     stop_requested := fun _ => false;
     wall_clock := fun n => n;
     document_refused := fun _ => None;
     timeout_max := 9223372036 |}.

(** The first write to the store fails, the later ones succeed. *)
Definition store_fails_once : environment :=
  {| serp_api := fun _ _ => Ok (two_results 3);
     insert_one_outcome :=
       fun n => match n with 0 => Some (PersistenceError "not primary") | _ => None end;
     find_outcome := fun _ => None;
     stop_requested := fun _ => false;
     wall_clock := fun n => n;
     document_refused := fun _ => None;
     timeout_max := 9223372036 |}.

(** Every write to the store fails. *)
Definition store_down : environment :=
  {| serp_api := fun _ _ => Ok (two_results 3);
     insert_one_outcome := fun _ => Some (PersistenceError "not primary");
     find_outcome := fun _ => None;
     stop_requested := fun _ => false;
     wall_clock := fun n => n;
     document_refused := fun _ => None;
     timeout_max := 9223372036 |}.

(** What the store's driver does with an integer that does not fit in
    eight bytes. *)
Definition refuses_wide_position (doc : document) : option exn :=
  match d_position doc with
  | VInt z =>
      if ((z <? - 2 ^ 63) || (2 ^ 63 - 1 <? z))%Z
      then Some (OverflowError "MongoDB can only handle up to 8-byte ints")
      else None
  | _ => None
  end.

(** The provider reports a position that does not fit in eight bytes;
    the driver refuses the document that holds it. *)
Definition provider_wide_position : environment :=
  {| serp_api := fun _ _ => Ok (two_results (2 ^ 70));
     insert_one_outcome := fun _ => None;
     find_outcome := fun _ => None;
     stop_requested := fun _ => false;
     wall_clock := fun n => n;
     document_refused := refuses_wide_position;
     timeout_max := 9223372036 |}.

(** Everything works, but the wall clock was set back: every reading
    is 0. *)
Definition clock_set_back : environment :=
  {| serp_api := fun _ _ => Ok (two_results 3);
     insert_one_outcome := fun _ => None;
     find_outcome := fun _ => None;
     stop_requested := fun _ => false;
     wall_clock := fun _ => 0;
     document_refused := fun _ => None;
     timeout_max := 9223372036 |}.

(** A store holding two observations of one key: position 5 first, then
    position 7. *)
Definition observation (ts : nat) (pos : value) : document :=
  {| d_keyword := "k"; d_domain := "d.com"; d_timestamp := ts;
     d_position := pos; d_link := VNone; d_title := VNone; d_snippet := VNone;
     d_found := false; d_total_results := VNone; d_search_params := ∅ |}.

(** A monitor whose store holds [docs]. *)
Definition stored (docs : list document) : state :=
  {| self := init "key" 60;
     collection := docs;
     clock := length docs; trace := [];
     n_search := length docs; n_insert := length docs; n_find := 0;
     n_observe := 0; n_threads := 0 |}.

Definition after_two_saves : state :=
  stored [observation 0 (VInt 5); observation 1 (VInt 7)].

Definition current_at (pos : value) : ranking_data :=
  {| found := true; position := pos; link := VStr "https://d.com/";
     title := VNone; snippet := VNone; total_results := VNone;
     rd_search_params := ∅ |}.

(** A fresh monitor, never configured. *)
Definition fresh : state := initial_state "key" 60.

(** [fresh] after [configure(kws, doms)]. *)
Definition configured (kws doms : list string) : state :=
  snd (configure kws doms ∅ fresh).

(** The provider is unreachable until the third call; a stop request
    reaches the loop at its fourth look at the flag. *)
Definition flaky_then_stopped : environment :=
  {| serp_api :=
       fun n _ => match n with
                  | 0 | 1 => Raise (ProviderError "timeout")
                  | _ => Ok (two_results 3)
                  end;
     insert_one_outcome := fun _ => None;
     find_outcome := fun _ => None;
     stop_requested := fun n => Nat.eqb n 3;
     wall_clock := fun n => n;
     document_refused := fun _ => None;
     timeout_max := 9223372036 |}.

(** A configured monitor after [start(run_immediately=False)]. *)
Definition started : state :=
  snd (start healthy false (configured ["k"] ["d.com"])).

End Sample.

(** The message of the error [start] raises on an empty configuration. *)
Definition not_configured : exn :=
  ValueError "Please configure keywords and domains first".

(** * Properties *)

(** ** Strings *)

Lemma str_prefix_spec (p s : string) :
  str_prefix p s = true <-> exists rest, s = p +:+ rest.
Proof.
  revert s. induction p as [|a p IH]; intros s; simpl.
  - split; [intros _; exists s; reflexivity | reflexivity].
  - destruct s as [|b s].
    + split; [discriminate | intros [rest H]; discriminate].
    + destruct (Ascii.eqb_spec a b) as [->|Hne].
      * rewrite IH. split; intros [rest H]; exists rest.
        -- now rewrite H.
        -- now inversion H.
      * split; [discriminate | intros [rest H]; inversion H; congruence].
Qed.

Lemma str_contains_spec (needle hay : string) :
  str_contains needle hay = true <-> is_substring needle hay.
Proof.
  unfold is_substring. induction hay as [|c hay IH]; simpl.
  - rewrite orb_false_r, str_prefix_spec. split.
    + intros [rest H]. exists EmptyString, rest. exact H.
    + intros [[|b before] [after H]]; simpl in H; [eauto | discriminate].
  - rewrite orb_true_iff, str_prefix_spec, IH. split.
    + intros [[rest H] | [before [after H]]].
      * exists EmptyString, rest. exact H.
      * exists (String c before), after. simpl. now rewrite H.
    + intros [[|b before] [after H]]; simpl in H.
      * left. eauto.
      * right. inversion H. eauto.
Qed.

(** The match is on the raw characters: letter case matters, and nothing
    is made of the scheme or of where the host name ends. *)
Example str_contains_raw :
  str_contains "dataget.ai" "https://shop.example.com/dataget.ai/page" = true
  /\ str_contains "dataget.ai" "https://DataGet.ai/" = false
  /\ str_contains "dataget.ai" "https://notdataget.ai.example.org/" = true.
Proof. repeat split; reflexivity. Qed.

(** ** The store's ordering *)

Lemma insert_desc_length (doc : document) (l : list document) :
  length (insert_desc doc l) = S (length l).
Proof.
  induction l as [|x l IH]; simpl; [reflexivity|].
  destruct (d_timestamp x <=? d_timestamp doc); simpl; congruence.
Qed.

Lemma sort_desc_length (l : list document) :
  length (sort_desc l) = length l.
Proof.
  induction l as [|x l IH]; simpl; [reflexivity|].
  rewrite insert_desc_length. congruence.
Qed.

Lemma insert_desc_perm (doc : document) (l : list document) :
  Permutation (insert_desc doc l) (doc :: l).
Proof.
  induction l as [|x l IH]; simpl; [reflexivity|].
  destruct (d_timestamp x <=? d_timestamp doc); [reflexivity|].
  rewrite IH. apply perm_swap.
Qed.

(** Sorting keeps exactly the documents it was given. *)
Lemma sort_desc_perm (l : list document) : Permutation (sort_desc l) l.
Proof.
  induction l as [|x l IH]; simpl; [reflexivity|].
  rewrite insert_desc_perm. now constructor.
Qed.

Lemma insert_desc_sorted (doc : document) (l : list document) :
  StronglySorted newer_first l -> StronglySorted newer_first (insert_desc doc l).
Proof.
  induction 1 as [|x l Hs IH Hall]; simpl.
  - repeat constructor.
  - destruct (Nat.leb_spec (d_timestamp x) (d_timestamp doc)) as [Hle|Hgt].
    + constructor; [now constructor|].
      constructor; [exact Hle|].
      eapply Forall_impl; [exact Hall|].
      unfold newer_first. intros b Hb. lia.
    + constructor; [exact IH|].
      rewrite (insert_desc_perm doc l).
      constructor; [unfold newer_first; lia | exact Hall].
Qed.

(** A history is ordered most recent first. *)
Lemma sort_desc_sorted (l : list document) :
  StronglySorted newer_first (sort_desc l).
Proof.
  induction l as [|x l IH]; simpl; [constructor|].
  now apply insert_desc_sorted.
Qed.

(** ** The rank checker *)

Ltac run_monad :=
  unfold bind, ret, raise, gets, modify, try_except, print, emit, time_sleep,
    datetime_now, set_self; simpl.

Section RankChecker.

Variable E : environment.

Lemma search_keyword_ok (keyword : string) (s : state) (resp : response) :
  serp_api E (n_search s) (search_request (self s) keyword) = Ok resp ->
  exists s', search_keyword E keyword s = (Ok resp, s')
    /\ self s' = self s
    /\ trace s' = trace s ++ [EvSearch (search_request (self s) keyword)].
Proof.
  intros H. unfold search_keyword, google_search. run_monad. rewrite H.
  eexists. split; [reflexivity|]. simpl. auto.
Qed.

Lemma search_keyword_raise (keyword : string) (s : state) (e : exn) :
  serp_api E (n_search s) (search_request (self s) keyword) = Raise e ->
  exists s', search_keyword E keyword s = (Ok empty_response, s')
    /\ self s' = self s
    /\ trace s' = trace s ++ [EvSearch (search_request (self s) keyword);
                              EvPrint (MsgSearchError keyword e)].
Proof.
  intros H. unfold search_keyword, google_search. run_monad. rewrite H.
  eexists. split; [reflexivity|]. simpl. split; [reflexivity|].
  now rewrite <- app_assoc.
Qed.

(** The scan of well-typed results: the first result whose link holds the
    domain is the one returned. *)
Lemma scan_results_first_match (domain : string) (results : response)
    (sp : gmap string value) (l : list (gmap string value)) (s : state) :
  Forall link_is_string l ->
  exists rd s', scan_results domain results sp l s = (Ok rd, s')
    /\ self s' = self s
    /\ ((exists pre r post lnk,
           l = pre ++ r :: post /\ Forall (no_match domain) pre
           /\ r !! "link" = Some (VStr lnk) /\ is_substring domain lnk
           /\ rd = found_data results sp r)
        \/ (Forall (no_match domain) l /\ rd = not_found_data results sp)).
Proof.
  induction 1 as [|r l Hr Hl IH]; simpl.
  - run_monad. do 2 eexists. split; [reflexivity|]. split; [reflexivity|].
    right. split; [constructor | reflexivity].
  - destruct (r !! "link") as [v|] eqn:Hlink.
    + destruct (Hr v Hlink) as [lnk ->]. simpl.
      destruct (str_contains domain lnk) eqn:Hc.
      * run_monad. do 2 eexists. split; [reflexivity|]. split; [reflexivity|].
        left. exists [], r, l, lnk. simpl.
        repeat split; [constructor | exact Hlink | now apply str_contains_spec].
      * destruct IH as (rd & s' & Hrun & Hself & Hcases).
        exists rd, s'. split; [exact Hrun|]. split; [exact Hself|].
        assert (Hno : no_match domain r).
        { intros lnk' Hl' Hsub. rewrite Hlink in Hl'. inversion Hl'; subst.
          apply str_contains_spec in Hsub. congruence. }
        destruct Hcases as [(pre & r' & post & lnk' & -> & Hpre & H1 & H2 & H3)
                           | [Hall Hrd]].
        -- left. exists (r :: pre), r', post, lnk'.
           repeat split; try assumption. now constructor.
        -- right. split; [now constructor | exact Hrd].
    + destruct IH as (rd & s' & Hrun & Hself & Hcases).
      exists rd, s'. split; [exact Hrun|]. split; [exact Hself|].
      assert (Hno : no_match domain r).
      { intros lnk' Hl'. congruence. }
      destruct Hcases as [(pre & r' & post & lnk' & -> & Hpre & H1 & H2 & H3)
                         | [Hall Hrd]].
      * left. exists (r :: pre), r', post, lnk'.
        repeat split; try assumption. now constructor.
      * right. split; [now constructor | exact Hrd].
Qed.

(** Whatever the results hold, a scan that returns hands back either the
    "not found" dictionary, no link holding the domain, or the one built
    from the first result whose link is a string holding the domain. *)
Lemma scan_results_returns (domain : string) (results : response)
    (sp : gmap string value) (l : list (gmap string value))
    (s s' : state) (rd : ranking_data) :
  scan_results domain results sp l s = (Ok rd, s') ->
  (rd = not_found_data results sp /\ Forall (no_match domain) l)
  \/ exists pre r post lnk,
       l = pre ++ r :: post /\ Forall (no_match domain) pre
       /\ r !! "link" = Some (VStr lnk)
       /\ str_contains domain lnk = true /\ rd = found_data results sp r.
Proof.
  revert s. induction l as [|r l IH]; intros s; simpl.
  - run_monad. intros H. inversion H. left. split; [reflexivity | constructor].
  - assert (Hstep : no_match domain r ->
      scan_results domain results sp l s = (Ok rd, s') ->
      (rd = not_found_data results sp /\ Forall (no_match domain) (r :: l))
      \/ exists pre r0 post lnk,
           r :: l = pre ++ r0 :: post /\ Forall (no_match domain) pre
           /\ r0 !! "link" = Some (VStr lnk)
           /\ str_contains domain lnk = true /\ rd = found_data results sp r0).
    { intros Hno H.
      destruct (IH _ H) as [[-> Hall]|(pre & r' & post & lnk' & -> & Hpre & Hrest)].
      - left. split; [reflexivity | now constructor].
      - right. exists (r :: pre), r', post, lnk'.
        split; [reflexivity|]. split; [now constructor | exact Hrest]. }
    destruct (r !! "link") as [v|] eqn:Hlink.
    + destruct v as [|z|lnk]; simpl; try (unfold raise; discriminate).
      destruct (str_contains domain lnk) eqn:Hc.
      * run_monad. intros H. inversion H. right. exists [], r, l, lnk.
        split; [reflexivity|]. split; [constructor|]. auto.
      * apply Hstep. intros lnk' Hl' Hsub. rewrite Hlink in Hl'.
        inversion Hl'; subst. apply str_contains_spec in Hsub. congruence.
    + apply Hstep. intros lnk' Hl'. rewrite Hlink in Hl'. discriminate.
Qed.

(** What [search_keyword] returns is the provider's answer, or the empty
    dictionary when the call raised. *)
Lemma search_keyword_returns (keyword : string) (s s' : state)
    (r : result response) :
  search_keyword E keyword s = (r, s') ->
  r = Ok empty_response
  \/ exists resp,
       r = Ok resp
       /\ serp_api E (n_search s) (search_request (self s) keyword) = Ok resp.
Proof.
  destruct (serp_api E (n_search s) (search_request (self s) keyword))
    as [resp|e] eqn:H.
  - destruct (search_keyword_ok keyword s resp H) as (s1 & -> & _).
    intros H1. inversion H1. right. now exists resp.
  - destruct (search_keyword_raise keyword s e H) as (s1 & -> & _).
    intros H1. inversion H1. now left.
Qed.

End RankChecker.

(** C5. When the provider answers with an organic result list whose links
    are strings, [check_domain_ranking] returns normally; the observation
    is built from the first result, in the order given, whose link holds
    the domain as a raw substring, and when no link does it is the "not
    found" observation. Either way [total_results] is the count in the
    response's [search_information], [None] when there is none. *)
Theorem check_domain_ranking_first_match (E : environment)
    (keyword domain : string) (s : state) (resp : response)
    (l : list (gmap string value)) :
  serp_api E (n_search s) (search_request (self s) keyword) = Ok resp ->
  organic_results resp = Some l ->
  Forall link_is_string l ->
  exists rd s',
    check_domain_ranking E keyword domain s = (Ok rd, s')
    /\ total_results rd =
         match search_information resp with
         | Some info => py_get info "total_results"
         | None => VNone
         end
    /\ ((exists pre r post lnk,
           l = pre ++ r :: post /\ Forall (no_match domain) pre
           /\ r !! "link" = Some (VStr lnk) /\ is_substring domain lnk
           /\ found rd = true
           /\ position rd = py_get r "position" /\ link rd = VStr lnk
           /\ title rd = py_get r "title" /\ snippet rd = py_get r "snippet")
        \/ (Forall (no_match domain) l
            /\ found rd = false
            /\ position rd = VNone /\ link rd = VNone
            /\ title rd = VNone /\ snippet rd = VNone)).
Proof.
  intros Hresp Horg Hty.
  unfold check_domain_ranking.
  destruct (search_keyword_ok E keyword
              (snd (print (MsgChecking keyword domain) s)) resp Hresp)
    as (s1 & Hs1 & Hself1 & _).
  unfold bind at 1. simpl. unfold bind at 1. simpl in Hs1. rewrite Hs1.
  unfold bind at 1, gets at 1.
  assert (Hne : resp_is_empty resp = false)
    by (unfold resp_is_empty; now rewrite Horg).
  rewrite Hne, Horg. rewrite bool_decide_eq_true_2 by eauto. simpl.
  destruct (scan_results_first_match domain resp (search_params (self s1)) l s1 Hty)
    as (rd & s' & Hrun & _ & Hcases).
  exists rd, s'. split; [exact Hrun|].
  assert (Htot : forall r, total_results (found_data resp (search_params (self s1)) r)
                           = total_results (not_found_data resp (search_params (self s1))))
    by reflexivity.
  split.
  - destruct Hcases as [(pre & r & post & lnk & _ & _ & _ & _ & ->) | [_ ->]];
      simpl; unfold resp_total_results; now destruct (search_information resp).
  - destruct Hcases as [(pre & r & post & lnk & Hl & Hpre & Hlnk & Hsub & ->)
                       | [Hall ->]].
    + left. exists pre, r, post, lnk. simpl.
      repeat split; try assumption. unfold py_get. now rewrite Hlnk.
    + right. simpl. repeat split; try reflexivity. exact Hall.
Qed.

Lemma check_domain_ranking_first_match_witness :
  serp_api Sample.healthy (n_search (Sample.configured ["k"] ["d.com"]))
    (search_request (self (Sample.configured ["k"] ["d.com"])) "k")
    = Ok (Sample.two_results 3)
  /\ exists rd s',
       check_domain_ranking Sample.healthy "k" "d.com"
         (Sample.configured ["k"] ["d.com"]) = (Ok rd, s')
       /\ found rd = true /\ position rd = VInt 3.
Proof.
  split; [reflexivity|].
  destruct (check_domain_ranking_first_match Sample.healthy "k" "d.com"
              (Sample.configured ["k"] ["d.com"]) (Sample.two_results 3) _
              eq_refl eq_refl)
    as (rd & s' & Hrun & _ & Hcases).
  - repeat constructor; intros v Hv; vm_compute in Hv; inversion Hv; eauto.
  - exists rd, s'. split; [exact Hrun|].
    vm_compute in Hrun. inversion Hrun. split; reflexivity.
Defined.

(** C6. An error raised by the probe call does not leave the rank
    checker: [check_domain_ranking] returns the "not found" observation,
    with position, link, title and snippet (and the result count) all
    [None], after reporting the error. *)
Theorem probe_error_degrades_to_not_found (E : environment)
    (keyword domain : string) (s : state) (e : exn) :
  serp_api E (n_search s) (search_request (self s) keyword) = Raise e ->
  exists s',
    check_domain_ranking E keyword domain s =
      (Ok {| found := false; position := VNone; link := VNone;
             title := VNone; snippet := VNone; total_results := VNone;
             rd_search_params := search_params (self s) |}, s')
    /\ trace s' = trace s ++ [EvPrint (MsgChecking keyword domain);
                              EvSearch (search_request (self s) keyword);
                              EvPrint (MsgSearchError keyword e)].
Proof.
  intros H. unfold check_domain_ranking, search_keyword, google_search.
  run_monad. rewrite H. simpl.
  eexists. split; [reflexivity|]. simpl.
  now rewrite <- !app_assoc.
Qed.

Lemma probe_error_degrades_to_not_found_witness :
  serp_api Sample.provider_down (n_search Sample.fresh)
    (search_request (self Sample.fresh) "k")
    = Raise (ProviderError "connection refused")
  /\ exists s',
       check_domain_ranking Sample.provider_down "k" "d.com" Sample.fresh =
         (Ok {| found := false; position := VNone; link := VNone;
                title := VNone; snippet := VNone; total_results := VNone;
                rd_search_params := search_params (self Sample.fresh) |}, s')
       /\ trace s' = trace Sample.fresh
            ++ [EvPrint (MsgChecking "k" "d.com");
                EvSearch (search_request (self Sample.fresh) "k");
                EvPrint (MsgSearchError "k" (ProviderError "connection refused"))].
Proof.
  split; [reflexivity|].
  apply (probe_error_degrades_to_not_found Sample.provider_down "k" "d.com"
           Sample.fresh (ProviderError "connection refused")).
  reflexivity.
Defined.

(** C7, as the claim has it, fails: a result whose link holds the domain
    but which reports no position yields [found = True] with a [None]
    position. *)
Lemma found_with_null_position :
  exists rd s',
    check_domain_ranking Sample.provider_unranked "k" "d.com"
      (Sample.configured ["k"] ["d.com"]) = (Ok rd, s')
    /\ found rd = true /\ position rd = VNone.
Proof.
  do 2 eexists. split; [vm_compute; reflexivity|]. split; reflexivity.
Qed.

(** C7, amended. Every observation returned by [check_domain_ranking]
    with [found = False] has position, link, title and snippet [None];
    with [found = True] it is built from a result of the provider's
    answer to this call - the first of the organic results whose link
    holds the domain: its link is that result's link, a string that
    holds the domain, and its position, title and snippet are what that
    result reports under ["position"], ["title"] and ["snippet"]
    ([None] when the result reports none). So the position is [None]
    whenever [found] is [False]. *)
Theorem ranking_data_shape (E : environment) (keyword domain : string)
    (s s' : state) (rd : ranking_data) :
  check_domain_ranking E keyword domain s = (Ok rd, s') ->
  (found rd = false ->
     position rd = VNone /\ link rd = VNone
     /\ title rd = VNone /\ snippet rd = VNone)
  /\ (found rd = true ->
        exists resp pre r post lnk,
          serp_api E (n_search s) (search_request (self s) keyword) = Ok resp
          /\ organic_results resp = Some (pre ++ r :: post)
          /\ Forall (no_match domain) pre
          /\ r !! "link" = Some (VStr lnk) /\ link rd = VStr lnk
          /\ is_substring domain lnk
          /\ position rd = py_get r "position"
          /\ title rd = py_get r "title"
          /\ snippet rd = py_get r "snippet")
  /\ (position rd <> VNone -> found rd = true).
Proof.
  unfold check_domain_ranking. unfold bind at 1. simpl. unfold bind at 1.
  destruct (search_keyword E keyword _) as [[resp|e] s1] eqn:Hsearch;
    [|discriminate].
  apply search_keyword_returns in Hsearch. simpl in Hsearch.
  unfold bind at 1, gets at 1.
  assert (Hnf : forall sp nf, nf = not_found_data resp sp ->
    (found nf = false ->
       position nf = VNone /\ link nf = VNone /\ title nf = VNone /\ snippet nf = VNone)
    /\ (found nf = true ->
          exists resp pre r post lnk,
            serp_api E (n_search s) (search_request (self s) keyword) = Ok resp
            /\ organic_results resp = Some (pre ++ r :: post)
            /\ Forall (no_match domain) pre
            /\ r !! "link" = Some (VStr lnk) /\ link nf = VStr lnk
            /\ is_substring domain lnk
            /\ position nf = py_get r "position"
            /\ title nf = py_get r "title"
            /\ snippet nf = py_get r "snippet")
    /\ (position nf <> VNone -> found nf = true)).
  { intros sp nf ->. simpl. repeat split; try reflexivity; [discriminate | congruence]. }
  destruct (resp_is_empty resp || negb (bool_decide (is_Some (organic_results resp)))).
  - unfold ret. intros H. inversion H; subst. eapply Hnf; reflexivity.
  - destruct (organic_results resp) as [l|] eqn:Horg; [|unfold raise; discriminate].
    intros H. apply scan_results_returns in H.
    destruct H as [[-> _]|(pre & r & post & lnk & -> & Hpre & Hlnk & Hc & ->)];
      [eapply Hnf; reflexivity|].
    simpl. split; [discriminate|]. split; [|reflexivity].
    intros _. exists resp, pre, r, post, lnk.
    destruct Hsearch as [Hempty|(resp' & Hok & Hapi)].
    + inversion Hempty; subst. discriminate Horg.
    + inversion Hok; subst resp'. unfold py_get at 1. rewrite Hlnk. simpl.
      repeat split; try assumption; try reflexivity.
      now apply str_contains_spec.
Qed.

Lemma ranking_data_shape_witness :
  let s := Sample.configured ["k"] ["d.com"] in
  let run := check_domain_ranking Sample.provider_unranked "k" "d.com" s in
  let rd :=
    {| found := true; position := VNone; link := VStr "https://d.com/";
       title := VNone; snippet := VNone; total_results := VNone;
       rd_search_params := search_params (self s) |} in
  run = (Ok rd, snd run)
  /\ (found rd = false ->
        position rd = VNone /\ link rd = VNone
        /\ title rd = VNone /\ snippet rd = VNone)
  /\ (found rd = true ->
        exists resp pre r post lnk,
          serp_api Sample.provider_unranked (n_search s)
            (search_request (self s) "k") = Ok resp
          /\ organic_results resp = Some (pre ++ r :: post)
          /\ Forall (no_match "d.com") pre
          /\ r !! "link" = Some (VStr lnk) /\ link rd = VStr lnk
          /\ is_substring "d.com" lnk
          /\ position rd = py_get r "position"
          /\ title rd = py_get r "title"
          /\ snippet rd = py_get r "snippet")
  /\ (position rd <> VNone -> found rd = true).
Proof.
  intros s run rd.
  assert (Hrun : run = (Ok rd, snd run)) by (vm_compute; reflexivity).
  split; [exact Hrun|].
  exact (ranking_data_shape Sample.provider_unranked "k" "d.com" s (snd run) rd Hrun).
Defined.

(** ** The change detector *)

Lemma find_sorted_two_length (keyword domain : string) (docs : list document) :
  2 <= length (find_sorted keyword domain 2 docs)
  <-> 2 <= length (stored_for keyword domain docs).
Proof.
  unfold find_sorted, stored_for.
  rewrite length_take, sort_desc_length. lia.
Qed.

Lemma find_sorted_two_baseline (keyword domain : string) (docs : list document) :
  find_sorted keyword domain 2 docs !! 1 = history_of keyword domain docs !! 1.
Proof.
  unfold find_sorted, history_of, stored_for. apply lookup_take_lt. lia.
Qed.

Lemma py_ne_true (a b : value) : py_ne a b = true <-> a <> b.
Proof.
  unfold py_ne. rewrite negb_true_iff, bool_decide_eq_false. reflexivity.
Qed.

Lemma py_ne_false (a b : value) : py_ne a b = false <-> a = b.
Proof.
  unfold py_ne. rewrite negb_false_iff, bool_decide_eq_true. reflexivity.
Qed.

(** Null against non-null is a difference; equal positions, both null
    included, are not. *)
Example py_ne_positions :
  py_ne (VInt 5) (VInt 5) = false /\ py_ne (VInt 7) (VInt 5) = true
  /\ py_ne (VInt 3) VNone = true /\ py_ne VNone (VInt 3) = true
  /\ py_ne VNone VNone = false.
Proof. repeat split; reflexivity. Qed.

(** C1. When the store answers the history query, [_check_changes]
    reports a ranking change exactly when at least two observations are
    stored for the key and the position of the second most recent one
    (the baseline) differs from the position of the current observation;
    the event carries the baseline position as [previous_position] and
    the current one as [current_position]. A registered listener receives
    exactly the events that are reported. *)
Theorem check_changes_emits_iff (E : environment) (keyword domain : string)
    (cur : ranking_data) (s : state) :
  find_outcome E (n_find s) = None ->
  exists r s' delta,
    _check_changes E keyword domain cur s = (r, s')
    /\ trace s' = trace s ++ delta
    /\ (forall info,
          In (EvPrint (MsgRankingChanged info)) delta
          <-> (2 <= length (stored_for keyword domain (collection s))
               /\ exists baseline,
                    history_of keyword domain (collection s) !! 1 = Some baseline
                    /\ d_position baseline <> position cur
                    /\ info = {| ci_keyword := keyword; ci_domain := domain;
                                 previous_position := d_position baseline;
                                 current_position := position cur;
                                 ci_timestamp := wall_clock E (clock s) |}))
    /\ (forall f info,
          on_change_callback (self s) = Some f ->
          In (EvCallback info) delta
          <-> In (EvPrint (MsgRankingChanged info)) delta).
Proof.
  intros Hfind.
  unfold _check_changes, get_ranking_history. unfold bind at 1. rewrite Hfind.
  destruct (Nat.leb_spec 2 (length (find_sorted keyword domain 2 (collection s))))
    as [Hlen|Hlen].
  - destruct (find_sorted keyword domain 2 (collection s) !! 1)
      as [previous|] eqn:Hprev.
    2:{ apply lookup_ge_None in Hprev. lia. }
    rewrite find_sorted_two_baseline in Hprev.
    apply find_sorted_two_length in Hlen.
    destruct (py_ne (position cur) (d_position previous)) eqn:Hne.
    + apply py_ne_true in Hne. run_monad.
      set (info0 := {| ci_keyword := keyword; ci_domain := domain;
                       previous_position := d_position previous;
                       current_position := position cur;
                       ci_timestamp := wall_clock E (clock s) |}).
      assert (Hiff : forall rest info,
        (forall i, In (EvPrint (MsgRankingChanged i)) rest -> False) ->
        In (EvPrint (MsgRankingChanged info))
           (EvFind keyword domain 2 :: EvPrint (MsgRankingChanged info0) :: rest)
        <-> (2 <= length (stored_for keyword domain (collection s))
             /\ exists baseline,
                  history_of keyword domain (collection s) !! 1 = Some baseline
                  /\ d_position baseline <> position cur
                  /\ info = {| ci_keyword := keyword; ci_domain := domain;
                               previous_position := d_position baseline;
                               current_position := position cur;
                               ci_timestamp := wall_clock E (clock s) |})).
      { intros rest info Hrest. split.
        - intros [H|[H|H]]; [discriminate | | destruct (Hrest _ H)].
          inversion H; subst info. split; [exact Hlen|].
          exists previous. repeat split; [exact Hprev | congruence].
        - intros (_ & baseline & Hb & _ & ->).
          rewrite Hprev in Hb. inversion Hb; subst baseline.
          right. left. reflexivity. }
      clearbody info0.
      destruct (on_change_callback (self s)) as [f|] eqn:Hcb.
      * exists (match f info0 with Some e => Raise e | None => Ok tt end).
        destruct (f info0) as [e|];
          (do 2 eexists; split; [reflexivity|]; simpl;
           split; [rewrite <- !app_assoc; reflexivity|]; split;
           [ intros info; apply Hiff; intros i [H|[]]; discriminate
           | intros f' info _; simpl; split;
             [ intros [H|[H|[H|[]]]]; try discriminate; inversion H; auto
             | intros [H|[H|[H|[]]]]; try discriminate; inversion H; auto ] ]).
      * do 3 eexists. split; [reflexivity|]. simpl.
        split; [rewrite <- !app_assoc; reflexivity|]. split.
        -- intros info. apply Hiff. intros i [].
        -- intros f info Hf. discriminate Hf.
    + apply py_ne_false in Hne.
      run_monad. do 3 eexists. split; [reflexivity|]. simpl.
      split; [reflexivity|]. split.
      * intros info. split.
        -- intros [H|[]]. discriminate.
        -- intros (_ & baseline & Hb & Hdiff & _).
           rewrite Hprev in Hb. inversion Hb; subst. congruence.
      * intros f info _. simpl. split; intros [H|[]]; discriminate.
  - run_monad. do 3 eexists. split; [reflexivity|]. simpl.
    split; [reflexivity|]. split.
    + intros info. split.
      * intros [H|[]]. discriminate.
      * intros (Hl & _). apply find_sorted_two_length in Hl. lia.
    + intros f info _. simpl. split; intros [H|[]]; discriminate.
Qed.

(** The change detector on a first observation, on an unchanged position,
    on a move from 5 to 7 and on a first appearance at 3. *)
Example check_changes_cold_start :
  trace (snd (_check_changes Sample.healthy "k" "d.com"
                (Sample.current_at (VInt 3))
                (Sample.stored [Sample.observation 0 (VInt 3)])))
  = [EvFind "k" "d.com" 2].
Proof. reflexivity. Qed.

Example check_changes_same_position :
  trace (snd (_check_changes Sample.healthy "k" "d.com"
                (Sample.current_at (VInt 5))
                (Sample.stored [Sample.observation 0 (VInt 5);
                                Sample.observation 1 (VInt 5)])))
  = [EvFind "k" "d.com" 2].
Proof. reflexivity. Qed.

Example check_changes_moved :
  trace (snd (_check_changes Sample.healthy "k" "d.com"
                (Sample.current_at (VInt 7)) Sample.after_two_saves))
  = [EvFind "k" "d.com" 2;
     EvPrint (MsgRankingChanged
                {| ci_keyword := "k"; ci_domain := "d.com";
                   previous_position := VInt 5; current_position := VInt 7;
                   ci_timestamp := 2 |})].
Proof. reflexivity. Qed.

Example check_changes_first_appearance :
  trace (snd (_check_changes Sample.healthy "k" "d.com"
                (Sample.current_at (VInt 3))
                (Sample.stored [Sample.observation 0 VNone;
                                Sample.observation 1 (VInt 3)])))
  = [EvFind "k" "d.com" 2;
     EvPrint (MsgRankingChanged
                {| ci_keyword := "k"; ci_domain := "d.com";
                   previous_position := VNone; current_position := VInt 3;
                   ci_timestamp := 2 |})].
Proof. reflexivity. Qed.

(** Two one-shot runs on one key: the first stores an observation at
    position 3 and reports no change, the second stores one at position 1
    and reports the change from 3 to 1. *)
Example run_once_twice :
  let s1 := snd (run_once Sample.healthy (Sample.configured ["k"] ["d.com"])) in
  let s2 := snd (run_once Sample.healthy s1) in
  map (fun d => (d_found d, d_position d)) (collection s1) = [(true, VInt 3)]
  /\ reported_changes (trace s1) = []
  /\ map (fun d => (d_found d, d_position d)) (collection s2)
     = [(true, VInt 3); (true, VInt 1)]
  /\ reported_changes (trace s2) = [(VInt 3, VInt 1)].
Proof. vm_compute. repeat split. Qed.

Lemma check_changes_emits_iff_witness :
  find_outcome Sample.healthy (n_find Sample.after_two_saves) = None
  /\ exists r s' delta,
       _check_changes Sample.healthy "k" "d.com" (Sample.current_at (VInt 7))
         Sample.after_two_saves = (r, s')
       /\ trace s' = trace Sample.after_two_saves ++ delta
       /\ (forall info,
             In (EvPrint (MsgRankingChanged info)) delta
             <-> (2 <= length (stored_for "k" "d.com"
                                 (collection Sample.after_two_saves))
                  /\ exists baseline,
                       history_of "k" "d.com" (collection Sample.after_two_saves) !! 1
                         = Some baseline
                       /\ d_position baseline <> position (Sample.current_at (VInt 7))
                       /\ info = {| ci_keyword := "k"; ci_domain := "d.com";
                                    previous_position := d_position baseline;
                                    current_position :=
                                      position (Sample.current_at (VInt 7));
                                    ci_timestamp :=
                                      wall_clock Sample.healthy
                                        (clock Sample.after_two_saves) |}))
       /\ (forall f info,
             on_change_callback (self Sample.after_two_saves) = Some f ->
             In (EvCallback info) delta
             <-> In (EvPrint (MsgRankingChanged info)) delta).
Proof.
  split; [reflexivity|].
  apply (check_changes_emits_iff Sample.healthy "k" "d.com"
           (Sample.current_at (VInt 7)) Sample.after_two_saves).
  reflexivity.
Defined.

(** ** What a cycle does to the state *)

Lemma keeps_monitor_refl (s : state) : keeps_monitor s s.
Proof.
  repeat split. exists []. split; [now rewrite app_nil_r | constructor].
Qed.

Lemma keeps_monitor_trans (s1 s2 s3 : state) :
  keeps_monitor s1 s2 -> keeps_monitor s2 s3 -> keeps_monitor s1 s3.
Proof.
  intros (Ha & Hb & Hc & d1 & Ht1 & Hq1) (Ha' & Hb' & Hc' & d2 & Ht2 & Hq2).
  repeat split; try congruence.
  exists (d1 ++ d2). split.
  - now rewrite Ht2, Ht1, app_assoc.
  - apply Forall_app. now split.
Qed.

Lemma keeps_monitor_event (s s' : state) (e : event) :
  self s' = self s -> n_observe s' = n_observe s -> n_threads s' = n_threads s ->
  trace s' = trace s ++ [e] -> inside_cycle e -> keeps_monitor s s'.
Proof.
  intros Ha Hb Hc Ht He. repeat split; try assumption.
  exists [e]. split; [exact Ht | now repeat constructor].
Qed.

Section Quiet.

Variable E : environment.

Lemma quiet_ret {A} (a : A) : quiet (ret a).
Proof. intros s r s' H. inversion H. apply keeps_monitor_refl. Qed.

Lemma quiet_raise {A} (e : exn) : quiet (@raise A e).
Proof. intros s r s' H. inversion H. apply keeps_monitor_refl. Qed.

Lemma quiet_gets {A} (f : state -> A) : quiet (gets f).
Proof. intros s r s' H. inversion H. apply keeps_monitor_refl. Qed.

Lemma quiet_bind {A B} (c : M A) (k : A -> M B) :
  quiet c -> (forall a, quiet (k a)) -> quiet (bind c k).
Proof.
  intros Hc Hk s r s' H. unfold bind in H.
  destruct (c s) as [[a|e] s1] eqn:Hcs.
  - eapply keeps_monitor_trans; [eapply Hc; eassumption | eapply Hk; eassumption].
  - inversion H; subst. eapply Hc; eassumption.
Qed.

Lemma quiet_try_except {A} (c : M A) (h : exn -> M A) :
  quiet c -> (forall e, quiet (h e)) -> quiet (try_except c h).
Proof.
  intros Hc Hh s r s' H. unfold try_except in H.
  destruct (c s) as [[a|e] s1] eqn:Hcs.
  - inversion H; subst. eapply Hc; eassumption.
  - eapply keeps_monitor_trans; [eapply Hc; eassumption | eapply Hh; eassumption].
Qed.

Lemma quiet_emit (e : event) : inside_cycle e -> quiet (emit e).
Proof.
  intros He s r s' H. inversion H; subst.
  now apply (keeps_monitor_event _ _ e).
Qed.

Lemma quiet_print (m : message) : inside_cycle (EvPrint m) -> quiet (print m).
Proof. apply quiet_emit. Qed.

Lemma quiet_datetime_now : quiet (datetime_now E).
Proof.
  intros s r s' H. inversion H; subst. repeat split.
  exists []. split; [simpl; now rewrite app_nil_r | constructor].
Qed.

Lemma quiet_insert_one (doc : document) : quiet (insert_one E doc).
Proof.
  intros s r s' H. unfold insert_one in H.
  destruct (insert_one_outcome E (n_insert s));
    [|destruct (document_refused E doc)]; inversion H; subst;
    now apply (keeps_monitor_event _ _ (EvInsert (d_keyword doc) (d_domain doc))).
Qed.

Lemma quiet_get_ranking_history (keyword domain : string) (limit : nat) :
  quiet (get_ranking_history E keyword domain limit).
Proof.
  intros s r s' H. unfold get_ranking_history in H.
  destruct (find_outcome E (n_find s)); inversion H; subst;
    now apply (keeps_monitor_event _ _ (EvFind keyword domain limit)).
Qed.

Lemma quiet_google_search (params : gmap string value) :
  quiet (google_search E params).
Proof.
  intros s r s' H. inversion H; subst.
  now apply (keeps_monitor_event _ _ (EvSearch params)).
Qed.

Lemma quiet_for_each {A} (l : list A) (body : A -> M unit) :
  (forall x, quiet (body x)) -> quiet (for_each l body).
Proof.
  intros Hb. induction l as [|x l IH]; simpl.
  - apply quiet_ret.
  - apply quiet_bind; [apply Hb | intros _; exact IH].
Qed.

Ltac quiet_step :=
  first
    [ apply quiet_bind; [|intros ?]
    | apply quiet_ret
    | apply quiet_raise
    | apply quiet_gets
    | apply quiet_datetime_now
    | apply quiet_print; exact I
    | apply quiet_emit; exact I
    | apply quiet_insert_one
    | apply quiet_get_ranking_history
    | apply quiet_google_search
    | apply quiet_try_except; [|intros ?]
    | match goal with
      | |- quiet (match ?x with _ => _ end) => destruct x
      end ].

Lemma quiet_scan_results (domain : string) (results : response)
    (sp : gmap string value) (l : list (gmap string value)) :
  quiet (scan_results domain results sp l).
Proof.
  induction l as [|r l IH]; simpl; [repeat quiet_step|].
  destruct (r !! "link") as [v|]; [|exact IH].
  destruct (py_in domain v) as [[|]|e]; [repeat quiet_step | exact IH | apply quiet_raise].
Qed.

Lemma quiet_check_domain_ranking (keyword domain : string) :
  quiet (check_domain_ranking E keyword domain).
Proof.
  unfold check_domain_ranking, search_keyword.
  repeat quiet_step; apply quiet_scan_results.
Qed.

Lemma quiet_save_ranking (keyword domain : string) (rd : ranking_data) :
  quiet (save_ranking E keyword domain rd).
Proof. unfold save_ranking. repeat quiet_step. Qed.

Lemma quiet_check_changes (keyword domain : string) (rd : ranking_data) :
  quiet (_check_changes E keyword domain rd).
Proof. unfold _check_changes. repeat quiet_step. Qed.

Lemma quiet_check_pair (keyword domain : string) :
  quiet (check_pair E keyword domain).
Proof.
  unfold check_pair, time_sleep.
  repeat first
    [ apply quiet_check_domain_ranking | apply quiet_save_ranking
    | apply quiet_check_changes | quiet_step ].
Qed.

Lemma quiet_run_pairs (pairs : list (string * string)) :
  quiet (run_pairs E pairs).
Proof. apply quiet_for_each. intros p. apply quiet_check_pair. Qed.

Lemma for_each_app {A} (l1 l2 : list A) (body : A -> M unit) (s : state) :
  for_each (l1 ++ l2) body s = (for_each l1 body ;; for_each l2 body) s.
Proof.
  revert s. induction l1 as [|x l1 IH]; intros s; simpl.
  - reflexivity.
  - unfold bind. destruct (body x s) as [[[]|e] s1]; [|reflexivity].
    rewrite IH. reflexivity.
Qed.

Lemma for_each_map {A B} (f : A -> B) (l : list A) (body : B -> M unit)
    (s : state) :
  for_each (map f l) body s = for_each l (fun x => body (f x)) s.
Proof.
  revert s. induction l as [|x l IH]; intros s; simpl; [reflexivity|].
  unfold bind. destruct (body (f x) s) as [[[]|e] s1]; [apply IH | reflexivity].
Qed.

(** The two nested loops of [check_all] visit the pairs of [all_pairs],
    keywords outermost. *)
Lemma nested_loops_run_pairs (kws : list string) (s : state) :
  for_each kws (fun keyword =>
    doms <- gets (fun s => domains (self s)) ;;
    for_each doms (fun domain => check_pair E keyword domain)) s
  = run_pairs E (list_prod kws (domains (self s))) s.
Proof.
  unfold run_pairs. revert s. induction kws as [|k kws IH]; intros s; simpl.
  - reflexivity.
  - rewrite for_each_app. unfold bind at 1 4. unfold bind at 1, gets at 1.
    rewrite for_each_map. simpl.
    destruct (for_each (domains (self s)) (fun x => check_pair E k x) s)
      as [[[]|e] s1] eqn:Hrun; [|reflexivity].
    assert (Hk : keeps_monitor s s1).
    { eapply (quiet_for_each (domains (self s)) (fun x => check_pair E k x));
        [intros x; apply quiet_check_pair | exact Hrun]. }
    destruct Hk as (Hself & _). rewrite IH, Hself. reflexivity.
Qed.

Lemma check_all_unfold (s : state) :
  check_all E s
  = (run_pairs E (all_pairs (self s)) ;;
     t1 <- datetime_now E ;; print (MsgCycleEnd t1)) (cycle_opened E s).
Proof.
  unfold check_all, cycle_opened, all_pairs.
  unfold bind at 1, datetime_now at 1. unfold bind at 1, print at 1, emit at 1, modify at 1.
  unfold bind at 1, gets at 1. unfold bind at 1.
  rewrite nested_loops_run_pairs. reflexivity.
Qed.

Lemma cycle_opened_fields (s : state) :
  self (cycle_opened E s) = self s
  /\ n_observe (cycle_opened E s) = n_observe s
  /\ n_threads (cycle_opened E s) = n_threads s
  /\ collection (cycle_opened E s) = collection s
  /\ trace (cycle_opened E s) = trace s ++ [EvPrint (MsgCycleStart (wall_clock E (clock s)))].
Proof. repeat split. Qed.

(** A run of [check_all], whatever its outcome, leaves the monitor object
    alone and adds one cycle to the trace. *)
Lemma check_all_one_cycle (s s' : state) (r : result unit) :
  check_all E s = (r, s') ->
  self s' = self s /\ n_observe s' = n_observe s /\ n_threads s' = n_threads s
  /\ exists c, one_cycle E s s' c.
Proof.
  rewrite check_all_unfold. intros H.
  assert (Hq : quiet (run_pairs E (all_pairs (self s)) ;;
                      t1 <- datetime_now E ;; print (MsgCycleEnd t1))).
  { repeat quiet_step. apply quiet_run_pairs. }
  destruct (Hq _ _ _ H) as (Ha & Hb & Hc & delta & Ht & Hd).
  destruct (cycle_opened_fields s) as (Ha' & Hb' & Hc' & _ & Ht').
  repeat split; try congruence.
  exists (EvPrint (MsgCycleStart (wall_clock E (clock s))) :: delta). split.
  - rewrite Ht, Ht', <- app_assoc. reflexivity.
  - exists delta. split; [reflexivity | exact Hd].
Qed.

End Quiet.

(** ** Errors inside a cycle *)

(** C2, as the claim has it, fails: when the store refuses the first
    pair's observation [check_all] raises at once; the second pair is
    never taken up, nothing is reported and nothing is stored, although
    the store would have accepted the second write. *)
Lemma cycle_aborted_by_store_error :
  fst (check_all Sample.store_fails_once
         (Sample.configured ["k"] ["other.org"; "d.com"]))
    = Raise (PersistenceError "not primary")
  /\ all_pairs (self (Sample.configured ["k"] ["other.org"; "d.com"]))
     = [("k", "other.org"); ("k", "d.com")]
  /\ checked_pairs
       (trace (snd (check_all Sample.store_fails_once
                      (Sample.configured ["k"] ["other.org"; "d.com"]))))
     = [("k", "other.org")]
  /\ reported_errors
       (trace (snd (check_all Sample.store_fails_once
                      (Sample.configured ["k"] ["other.org"; "d.com"]))))
     = []
  /\ collection (snd (check_all Sample.store_fails_once
                        (Sample.configured ["k"] ["other.org"; "d.com"])))
     = [].
Proof. vm_compute. repeat split. Qed.

Lemma save_ranking_raise (E : environment) (keyword domain : string)
    (rd : ranking_data) (s : state) (e : exn) :
  insert_one_outcome E (n_insert s) = Some e ->
  exists s', save_ranking E keyword domain rd s = (Raise e, s')
    /\ trace s' = trace s ++ [EvInsert keyword domain]
    /\ collection s' = collection s.
Proof.
  intros H. unfold save_ranking, insert_one. run_monad. rewrite H.
  eexists. split; [reflexivity|]. split; reflexivity.
Qed.

(** C2, amended. [check_all] catches nothing. When the pairs before
    [(keyword, domain)] went through and processing that pair raises,
    [check_all] raises the same error in the state the pair left: the
    rest of the pair and every later pair of the cycle are skipped, and
    [check_all] itself reports nothing. A persistence error while saving
    the pair's observation is such an error: the cycle ends at the
    failed write. *)
Theorem check_all_stops_at_first_error (E : environment) (s s1 : state)
    (pre post : list (string * string)) (keyword domain : string) :
  all_pairs (self s) = pre ++ (keyword, domain) :: post ->
  run_pairs E pre (cycle_opened E s) = (Ok tt, s1) ->
  (forall e s2,
     check_pair E keyword domain s1 = (Raise e, s2) ->
     check_all E s = (Raise e, s2))
  /\ (forall rd s1' e,
        check_domain_ranking E keyword domain s1 = (Ok rd, s1') ->
        insert_one_outcome E (n_insert s1') = Some e ->
        exists s2,
          check_all E s = (Raise e, s2)
          /\ trace s2 = trace s1' ++ [EvInsert keyword domain]
          /\ collection s2 = collection s1').
Proof.
  intros Hpairs Hpre.
  assert (Habort : forall e s2,
    check_pair E keyword domain s1 = (Raise e, s2) ->
    check_all E s = (Raise e, s2)).
  { intros e s2 Hpair.
    rewrite check_all_unfold, Hpairs. unfold bind at 1.
    unfold run_pairs in *. rewrite for_each_app. unfold bind at 1.
    rewrite Hpre. simpl. unfold bind at 1. simpl in Hpair. now rewrite Hpair. }
  split; [exact Habort|].
  intros rd s1' e Hrd Hins.
  destruct (save_ranking_raise E keyword domain rd s1' e Hins)
    as (s2 & Hsave & Ht & Hc).
  exists s2. split; [|split; assumption].
  apply Habort. unfold check_pair. unfold bind at 1. rewrite Hrd.
  unfold bind at 1. now rewrite Hsave.
Qed.

Lemma check_all_stops_at_first_error_witness :
  let s := Sample.configured ["k"] ["other.org"; "d.com"] in
  let failed := check_pair Sample.store_fails_once "k" "other.org" (cycle_opened Sample.store_fails_once s) in
  all_pairs (self s) = [] ++ ("k", "other.org") :: [("k", "d.com")]
  /\ run_pairs Sample.store_fails_once [] (cycle_opened Sample.store_fails_once s) = (Ok tt, cycle_opened Sample.store_fails_once s)
  /\ failed = (Raise (PersistenceError "not primary"), snd failed)
  /\ check_all Sample.store_fails_once s
     = (Raise (PersistenceError "not primary"), snd failed).
Proof.
  intros s failed.
  assert (H1 : all_pairs (self s) = [] ++ ("k", "other.org") :: [("k", "d.com")])
    by reflexivity.
  assert (H2 : run_pairs Sample.store_fails_once [] (cycle_opened Sample.store_fails_once s)
               = (Ok tt, cycle_opened Sample.store_fails_once s)) by reflexivity.
  assert (H3 : failed = (Raise (PersistenceError "not primary"), snd failed))
    by (vm_compute; reflexivity).
  split; [exact H1|]. split; [exact H2|]. split; [exact H3|].
  exact (proj1 (check_all_stops_at_first_error Sample.store_fails_once s
                  (cycle_opened Sample.store_fails_once s) [] [("k", "d.com")] "k" "other.org" H1 H2)
               _ _ H3).
Defined.

(** ** Configuration and life cycle *)

(** C3, as the claim has it, fails: [configure] accepts an empty keyword
    list and an empty domain list. *)
Lemma configure_accepts_empty_lists :
  fst (configure [] ["d.com"] ∅ Sample.fresh) = Ok tt
  /\ fst (configure ["k"] [] ∅ Sample.fresh) = Ok tt
  /\ keywords (self (snd (configure [] ["d.com"] ∅ Sample.fresh))) = []
  /\ domains (self (snd (configure ["k"] [] ∅ Sample.fresh))) = [].
Proof. repeat split. Qed.

(** C3, amended. [configure] returns normally whatever the lists are and
    calls nothing outside. An empty keyword list or an empty domain list
    is rejected by [start]: on a monitor that is not running [start]
    raises [ValueError] and leaves the state untouched, so no cycle has
    run and no network call was made. *)
Theorem empty_configuration_rejected_by_start (E : environment)
    (kws doms : list string) (params : gmap string value) (s : state) :
  kws = [] \/ doms = [] ->
  running (self s) = false ->
  exists s1,
    configure kws doms params s = (Ok tt, s1)
    /\ trace s1 = trace s ++ [EvPrint (MsgConfigured (length kws) (length doms));
                              EvPrint (MsgInterval (interval_minutes (self s)))]
    /\ n_search s1 = n_search s
    /\ forall run_immediately,
         start E run_immediately s1 = (Raise not_configured, s1).
Proof.
  intros Hempty Hidle. unfold configure. run_monad.
  eexists. split; [reflexivity|]. simpl.
  split; [now rewrite <- app_assoc|]. split; [reflexivity|].
  intros run_immediately. unfold start. run_monad. rewrite Hidle.
  destruct Hempty as [-> | ->]; simpl; [reflexivity|].
  now rewrite orb_true_r.
Qed.

Lemma empty_configuration_rejected_by_start_witness :
  (["k"] = [] \/ @nil string = [])
  /\ running (self Sample.fresh) = false
  /\ exists s1,
       configure ["k"] [] ∅ Sample.fresh = (Ok tt, s1)
       /\ trace s1 = trace Sample.fresh
            ++ [EvPrint (MsgConfigured 1 0);
                EvPrint (MsgInterval (interval_minutes (self Sample.fresh)))]
       /\ n_search s1 = n_search Sample.fresh
       /\ forall run_immediately,
            start Sample.healthy run_immediately s1 = (Raise not_configured, s1).
Proof.
  split; [right; reflexivity|]. split; [reflexivity|].
  apply (empty_configuration_rejected_by_start Sample.healthy ["k"] [] ∅ Sample.fresh).
  - right. reflexivity.
  - reflexivity.
Defined.

(** C4 on the code: on a monitor that was never configured [start] raises
    [ValueError] before doing anything, but [run_once] raises nothing: it
    runs a cycle over no pair at all, prints the cycle's two banners and
    returns. Neither probes. *)
Theorem run_once_before_configure_returns (E : environment) (key : string)
    (minutes : Z) :
  (forall run_immediately,
     start E run_immediately (initial_state key minutes)
     = (Raise not_configured, initial_state key minutes))
  /\ exists s',
       run_once E (initial_state key minutes) = (Ok tt, s')
       /\ trace s' = [EvPrint (MsgCycleStart (wall_clock E 0));
                      EvPrint (MsgCycleEnd (wall_clock E 1))]
       /\ n_search s' = 0.
Proof.
  split; [reflexivity|].
  eexists. split; [reflexivity|]. split; reflexivity.
Qed.

(** C8. On a monitor that is not running [stop] returns normally: it
    prints that the monitor is not running and changes nothing else. On
    a monitor that is running [start] returns normally: it prints that
    the monitor is already running, changes nothing else and starts no
    thread, so no second loop runs. *)
Theorem stop_idle_and_start_running_are_noops (E : environment) (s : state) :
  (running (self s) = false ->
     exists s',
       stop s = (Ok tt, s')
       /\ trace s' = trace s ++ [EvPrint MsgNotRunning]
       /\ self s' = self s /\ collection s' = collection s
       /\ n_threads s' = n_threads s)
  /\ (running (self s) = true ->
        forall run_immediately fuel,
        exists s',
          start E run_immediately s = (Ok tt, s')
          /\ trace s' = trace s ++ [EvPrint MsgAlreadyRunning]
          /\ self s' = self s /\ collection s' = collection s
          /\ n_threads s' = n_threads s
          /\ start_then_loop E run_immediately fuel s = (Ok None, s')).
Proof.
  split.
  - intros Hidle. unfold stop. run_monad. rewrite Hidle. simpl.
    eexists. split; [reflexivity|]. repeat split.
  - intros Hrun run_immediately fuel. unfold start_then_loop, start.
    run_monad. rewrite Hrun. simpl.
    eexists. split; [reflexivity|]. simpl. rewrite Nat.ltb_irrefl.
    repeat split.
Qed.

Lemma stop_idle_and_start_running_are_noops_witness :
  running (self Sample.fresh) = false
  /\ running (self Sample.started) = true
  /\ (exists s',
        stop Sample.fresh = (Ok tt, s')
        /\ trace s' = trace Sample.fresh ++ [EvPrint MsgNotRunning]
        /\ self s' = self Sample.fresh /\ collection s' = collection Sample.fresh
        /\ n_threads s' = n_threads Sample.fresh)
  /\ (exists s',
        start Sample.healthy true Sample.started = (Ok tt, s')
        /\ trace s' = trace Sample.started ++ [EvPrint MsgAlreadyRunning]
        /\ self s' = self Sample.started
        /\ collection s' = collection Sample.started
        /\ n_threads s' = n_threads Sample.started
        /\ start_then_loop Sample.healthy true 3 Sample.started = (Ok None, s')).
Proof.
  split; [reflexivity|]. split; [reflexivity|]. split.
  - apply (proj1 (stop_idle_and_start_running_are_noops Sample.healthy Sample.fresh)).
    reflexivity.
  - apply (proj2 (stop_idle_and_start_running_are_noops Sample.healthy Sample.started)).
    reflexivity.
Defined.

(** ** The background loop *)

Section Loop.

Variable E : environment.

Lemma waits_app (l1 l2 : list event) : waits (l1 ++ l2) = waits l1 + waits l2.
Proof.
  induction l1 as [|e l1 IH]; simpl; [reflexivity|].
  destruct e; simpl; rewrite IH; reflexivity.
Qed.

Lemma waits_inside_cycle (l : list event) : Forall inside_cycle l -> waits l = 0.
Proof.
  induction 1 as [|e l He Hl IH]; simpl; [reflexivity|].
  destruct e; simpl in *; try exact IH. contradiction.
Qed.

Lemma waits_one_cycle (s s' : state) (c : list event) :
  one_cycle E s s' c -> waits c = 0.
Proof.
  intros (_ & delta & -> & Hd). simpl. now apply waits_inside_cycle.
Qed.

Lemma observe_stop_quiet (s : state) :
  stop_requested E (n_observe s) = false ->
  self (snd (observe_stop E s)) = self s.
Proof. intros H. simpl. now rewrite H. Qed.

Lemma observe_stop_interval (s : state) :
  interval_minutes (self (snd (observe_stop E s))) = interval_minutes (self s).
Proof. simpl. now destruct (stop_requested E (n_observe s)). Qed.

Lemma after_cycle_fields (r : result unit) (s : state) :
  self (after_cycle r s) = self s
  /\ n_observe (after_cycle r s) = n_observe s
  /\ n_threads (after_cycle r s) = n_threads s
  /\ exists err, trace (after_cycle r s) = trace s ++ err
       /\ waits err = 0
       /\ match r with
          | Ok _ => err = []
          | Raise e => err = [EvPrint (MsgLoopError e)]
          end.
Proof.
  destruct r as [[]|e]; simpl; repeat split.
  - exists []. now rewrite app_nil_r.
  - eexists. repeat split.
Qed.

(** A wait in full: the call is recorded, the flag is looked at, and the
    outcome follows from the flag and the timeout. *)
Lemma stop_event_wait_run (timeout : Z) (s : state) :
  stop_event_wait E timeout s
  = (if stop_event (self (snd (observe_stop E (snd (emit (EvWait timeout) s)))))
     then Ok true
     else if (timeout_max E <? timeout)%Z then Raise wait_error else Ok false,
     snd (observe_stop E (snd (emit (EvWait timeout) s)))).
Proof.
  unfold stop_event_wait. unfold bind at 1. unfold emit at 1, modify at 1.
  unfold bind at 1.
  change (observe_stop E ?x) with (Ok tt, snd (observe_stop E x)) at 1.
  cbn iota. unfold bind at 1, gets at 1.
  destruct (stop_event (self (snd (observe_stop E _)))); [reflexivity|].
  destruct (timeout_max E <? timeout)%Z; reflexivity.
Qed.

Lemma after_wait_eq (s : state) :
  after_wait E s
  = snd (observe_stop E (snd (emit (EvWait (interval_minutes (self s) * 60)) s))).
Proof. unfold after_wait. now rewrite stop_event_wait_run. Qed.

Lemma after_wait_fields (s : state) :
  trace (after_wait E s) = trace s ++ [EvWait (interval_minutes (self s) * 60)]
  /\ n_observe (after_wait E s) = S (n_observe s)
  /\ n_threads (after_wait E s) = n_threads s
  /\ (stop_requested E (n_observe s) = false -> self (after_wait E s) = self s)
  /\ interval_minutes (self (after_wait E s)) = interval_minutes (self s).
Proof.
  rewrite after_wait_eq. repeat split.
  - intros H. simpl. now rewrite H.
  - simpl. now destruct (stop_requested E (n_observe s)).
Qed.

(** The outcome of the loop's wait. *)
Lemma stop_event_wait_outcome (s : state) :
  stop_event_wait E (interval_minutes (self s) * 60) s
  = (if wait_overflows E s then Raise wait_error
     else Ok (stop_event (self (after_wait E s))),
     after_wait E s).
Proof.
  unfold wait_overflows, wait_timeout. rewrite after_wait_eq, stop_event_wait_run.
  destruct (stop_event (self (snd (observe_stop E _)))); [reflexivity|].
  destruct (timeout_max E <? _)%Z; reflexivity.
Qed.

Lemma wait_fits (s : state) :
  (wait_timeout (self s) <= timeout_max E)%Z -> wait_overflows E s = false.
Proof.
  intros H. unfold wait_overflows.
  rewrite (proj2 (Z.ltb_ge _ _) H). apply andb_false_r.
Qed.

Lemma wait_overflows_true (s : state) :
  wait_overflows E s = true ->
  (timeout_max E < wait_timeout (self s))%Z
  /\ stop_event (self (after_wait E s)) = false.
Proof.
  unfold wait_overflows. rewrite andb_true_iff, negb_true_iff, Z.ltb_lt. tauto.
Qed.

(** One turn of the loop: when the stop flag is found clear, the loop runs
    a cycle, reports its error if it raised one, and calls the wait; it
    goes on unless the wait itself raises. *)
Lemma monitor_loop_turn (fuel : nat) (s s1 : state) (r : result unit) :
  stop_requested E (n_observe s) = false ->
  stop_event (self s) = false ->
  check_all E (snd (observe_stop E s)) = (r, s1) ->
  _monitor_loop E (S fuel) s
  = if wait_overflows E (after_cycle r s1)
    then (Raise wait_error, after_wait E (after_cycle r s1))
    else _monitor_loop E fuel (after_wait E (after_cycle r s1)).
Proof.
  intros Hreq Hflag Hcycle.
  assert (Hflag' : stop_event (self (snd (observe_stop E s))) = false)
    by (now rewrite observe_stop_quiet).
  cbn [_monitor_loop]. unfold stop_event_is_set.
  unfold bind at 1. unfold bind at 1. unfold gets at 1.
  change (observe_stop E s) with (Ok tt, snd (observe_stop E s)).
  cbn iota. rewrite Hflag'.
  unfold bind at 1, try_except at 1. rewrite Hcycle.
  assert (Hstep : forall x,
    (minutes <- gets (fun s => interval_minutes (self s)) ;;
     stop_event_wait E (minutes * 60) ;; _monitor_loop E fuel) x
    = if wait_overflows E x then (Raise wait_error, after_wait E x)
      else _monitor_loop E fuel (after_wait E x)).
  { intros x. unfold bind at 1, gets at 1. unfold bind at 1.
    rewrite stop_event_wait_outcome. now destruct (wait_overflows E x). }
  destruct r as [[]|e]; apply Hstep.
Qed.

(** How a bounded run of the loop can end: it returns with the stop flag
    set, or it is still going, or its wait raised because the timeout
    exceeds what the platform can time. It only adds to the trace and
    keeps the interval. *)
Lemma monitor_loop_outcome (fuel : nat) (s : state) :
  exists r s' rest,
    _monitor_loop E fuel s = (r, s')
    /\ trace s' = trace s ++ rest
    /\ interval_minutes (self s') = interval_minutes (self s)
    /\ match r with
       | Ok Returned => stop_event (self s') = true
       | Ok StillRunning => True
       | Raise e =>
           e = wait_error
           /\ (timeout_max E < wait_timeout (self s))%Z
           /\ stop_event (self s') = false
           /\ exists before,
                trace s' = before ++ [EvWait (wait_timeout (self s))]
       end.
Proof.
  revert s. induction fuel as [|fuel IH]; intros s.
  - exists (Ok StillRunning), s, []. simpl. unfold ret.
    repeat split. now rewrite app_nil_r.
  - destruct (stop_event (self (snd (observe_stop E s)))) eqn:Hflag.
    + exists (Ok Returned), (snd (observe_stop E s)), [].
      cbn [_monitor_loop]. unfold stop_event_is_set.
      unfold bind at 1. unfold bind at 1. unfold gets at 1.
      change (observe_stop E s) with (Ok tt, snd (observe_stop E s)).
      cbn iota. rewrite Hflag. unfold ret.
      repeat split; [simpl; now rewrite app_nil_r | apply observe_stop_interval | exact Hflag].
    + destruct (stop_requested E (n_observe s)) eqn:Hreq;
        [simpl in Hflag; rewrite Hreq in Hflag; discriminate|].
      assert (Hs : stop_event (self s) = false)
        by (rewrite <- (observe_stop_quiet s Hreq); exact Hflag).
      destruct (check_all E (snd (observe_stop E s))) as [r s1] eqn:Hcycle.
      rewrite (monitor_loop_turn fuel s s1 r Hreq Hs Hcycle).
      destruct (check_all_one_cycle E _ _ _ Hcycle) as (Self1 & _ & _ & c & Hc & _).
      destruct (after_cycle_fields r s1) as (Self2 & _ & _ & err & Herr & _).
      destruct (after_wait_fields (after_cycle r s1)) as (Hw & _ & _ & _ & Hi).
      assert (Hint : interval_minutes (self (after_cycle r s1))
                     = interval_minutes (self s))
        by (rewrite Self2, Self1; apply observe_stop_interval).
      assert (Htr : trace (after_wait E (after_cycle r s1))
                    = trace s ++ (c ++ err) ++ [EvWait (wait_timeout (self s))]).
      { rewrite Hw, Herr, Hc, Hint. simpl. unfold wait_timeout.
        rewrite <- !app_assoc. reflexivity. }
      destruct (wait_overflows E (after_cycle r s1)) eqn:Hov.
      * destruct (wait_overflows_true _ Hov) as (Hbig & Hclear).
        exists (Raise wait_error), (after_wait E (after_cycle r s1)).
        eexists. split; [reflexivity|]. split; [exact Htr|].
        split; [now rewrite Hi|]. split; [reflexivity|].
        split; [unfold wait_timeout in *; now rewrite <- Hint|].
        split; [exact Hclear|]. eexists. rewrite Htr, app_assoc. reflexivity.
      * destruct (IH (after_wait E (after_cycle r s1)))
          as (r' & s' & rest & Hrun & Ht & Hi' & Hshape).
        exists r', s'. eexists. split; [exact Hrun|]. split.
        { rewrite Ht, Htr, <- !app_assoc. reflexivity. }
        split; [now rewrite Hi', Hi|].
        destruct r' as [[|]|e]; try exact Hshape.
        unfold wait_timeout in *. rewrite Hi, Hint in Hshape. exact Hshape.
Qed.

(** With a timeout the platform can time, the loop never raises. *)
Lemma monitor_loop_total (fuel : nat) (s : state) :
  (wait_timeout (self s) <= timeout_max E)%Z ->
  exists st s' rest,
    _monitor_loop E fuel s = (Ok st, s')
    /\ trace s' = trace s ++ rest
    /\ (st = Returned -> stop_event (self s') = true).
Proof.
  intros Hfit.
  destruct (monitor_loop_outcome fuel s) as (r & s' & rest & Hrun & Ht & _ & Hshape).
  destruct r as [st|e].
  - exists st, s', rest. split; [exact Hrun|]. split; [exact Ht|].
    intros ->. exact Hshape.
  - destruct Hshape as (_ & Hbig & _). lia.
Qed.

(** As long as nobody asks the monitor to stop and the platform can time
    the wait, the loop is still going after any number of turns, and has
    waited once per turn. *)
Lemma monitor_loop_keeps_running (fuel : nat) (s : state) :
  (forall n, stop_requested E n = false) ->
  (wait_timeout (self s) <= timeout_max E)%Z ->
  stop_event (self s) = false ->
  exists s' delta,
    _monitor_loop E fuel s = (Ok StillRunning, s')
    /\ trace s' = trace s ++ delta
    /\ waits delta = fuel.
Proof.
  intros Hnever. revert s. induction fuel as [|fuel IH]; intros s Hfit Hflag.
  - exists s, []. simpl. unfold ret. now rewrite app_nil_r.
  - destruct (check_all E (snd (observe_stop E s))) as [r s1] eqn:Hcycle.
    rewrite (monitor_loop_turn fuel s s1 r (Hnever _) Hflag Hcycle).
    destruct (check_all_one_cycle E _ _ _ Hcycle) as (Hself1 & _ & _ & c & Hc).
    destruct (after_cycle_fields r s1) as (Hself2 & _ & _ & err & Herr & Hwerr & _).
    destruct (after_wait_fields (after_cycle r s1)) as (Hw & _ & _ & Hself3 & _).
    specialize (Hself3 (Hnever _)).
    assert (Hself : self (after_cycle r s1) = self s)
      by (rewrite Hself2, Hself1; apply observe_stop_quiet, Hnever).
    rewrite wait_fits by (now rewrite Hself).
    destruct (IH (after_wait E (after_cycle r s1))) as (s' & delta & Hrun & Ht & Hn).
    { now rewrite Hself3, Hself. }
    { now rewrite Hself3, Hself. }
    exists s'. eexists. split; [exact Hrun|]. split.
    + destruct Hc as (Hc & _). rewrite Ht, Hw, Herr, Hc. simpl.
      rewrite <- !app_assoc. reflexivity.
    + rewrite !waits_app, (waits_one_cycle _ _ _ Hc), Hwerr, Hn. simpl. lia.
Qed.

End Loop.

(** C9, amended. An error raised out of a cycle run by the background
    loop is caught by the loop, which reports it and calls the wait for
    the next cycle; an error of a cycle never ends the loop. The loop
    returns only with the stop flag set, and the one error it can raise
    is the wait's own [OverflowError], when the stop flag is clear and
    the interval, in seconds, exceeds [threading.TIMEOUT_MAX]: the wait
    is outside the handler. With an interval the platform can time the
    loop never raises, and while nobody asks the monitor to stop it is
    still running after any number of turns, having waited once per
    turn, whatever the cycles raised. *)
Theorem monitor_loop_survives_cycle_errors (E : environment) :
  (forall fuel s s1 e,
     stop_requested E (n_observe s) = false ->
     stop_event (self s) = false ->
     check_all E (snd (observe_stop E s)) = (Raise e, s1) ->
     exists s2,
       trace s2 = trace s1 ++ [EvPrint (MsgLoopError e);
                               EvWait (interval_minutes (self s) * 60)]
       /\ _monitor_loop E (S fuel) s
          = if wait_overflows E (after_cycle (Raise e) s1)
            then (Raise wait_error, s2)
            else _monitor_loop E fuel s2)
  /\ (forall fuel s r s',
        _monitor_loop E fuel s = (r, s') ->
        match r with
        | Ok Returned => stop_event (self s') = true
        | Ok StillRunning => True
        | Raise e =>
            e = wait_error
            /\ (timeout_max E < wait_timeout (self s))%Z
            /\ stop_event (self s') = false
            /\ exists before,
                 trace s' = before ++ [EvWait (wait_timeout (self s))]
        end)
  /\ (forall fuel s,
        (wait_timeout (self s) <= timeout_max E)%Z ->
        exists st s',
          _monitor_loop E fuel s = (Ok st, s')
          /\ (st = Returned -> stop_event (self s') = true))
  /\ (forall fuel s,
        (forall n, stop_requested E n = false) ->
        (wait_timeout (self s) <= timeout_max E)%Z ->
        stop_event (self s) = false ->
        exists s' delta,
          _monitor_loop E fuel s = (Ok StillRunning, s')
          /\ trace s' = trace s ++ delta
          /\ waits delta = fuel).
Proof.
  split; [|split; [|split]].
  - intros fuel s s1 e Hreq Hflag Hcycle.
    exists (after_wait E (after_cycle (Raise e) s1)). split.
    + destruct (check_all_one_cycle E _ _ _ Hcycle) as (Hself & _).
      destruct (after_wait_fields E (after_cycle (Raise e) s1)) as (Hw & _).
      rewrite Hw. simpl. rewrite Hself, observe_stop_interval.
      now rewrite <- app_assoc.
    + now apply monitor_loop_turn.
  - intros fuel s r s' Hrun.
    destruct (monitor_loop_outcome E fuel s) as (r0 & s0 & rest & Hrun0 & _ & _ & Hshape).
    rewrite Hrun in Hrun0. inversion Hrun0; subst. exact Hshape.
  - intros fuel s Hfit.
    destruct (monitor_loop_total E fuel s Hfit) as (st & s' & rest & Hrun & _ & Hst).
    now exists st, s'.
  - intros fuel s. apply monitor_loop_keeps_running.
Qed.

Lemma monitor_loop_survives_cycle_errors_witness :
  let E := Sample.store_down in
  let s := Sample.started in
  let cycle := check_all E (snd (observe_stop E s)) in
  stop_requested E (n_observe s) = false
  /\ stop_event (self s) = false
  /\ (forall n, stop_requested E n = false)
  /\ (wait_timeout (self s) <= timeout_max E)%Z
  /\ cycle = (Raise (PersistenceError "not primary"), snd cycle)
  /\ (exists s2,
        trace s2 = trace (snd cycle)
          ++ [EvPrint (MsgLoopError (PersistenceError "not primary"));
              EvWait (interval_minutes (self s) * 60)]
        /\ _monitor_loop E 3 s
           = if wait_overflows E
                  (after_cycle (Raise (PersistenceError "not primary")) (snd cycle))
             then (Raise wait_error, s2)
             else _monitor_loop E 2 s2)
  /\ (exists s' delta,
        _monitor_loop E 3 s = (Ok StillRunning, s')
        /\ trace s' = trace s ++ delta
        /\ waits delta = 3).
Proof.
  intros E s cycle.
  assert (H1 : stop_requested E (n_observe s) = false) by reflexivity.
  assert (H2 : stop_event (self s) = false) by reflexivity.
  assert (H3 : forall n, stop_requested E n = false) by reflexivity.
  assert (H0 : (wait_timeout (self s) <= timeout_max E)%Z) by (vm_compute; discriminate).
  assert (H4 : cycle = (Raise (PersistenceError "not primary"), snd cycle))
    by (vm_compute; reflexivity).
  split; [exact H1|]. split; [exact H2|]. split; [exact H3|]. split; [exact H0|].
  split; [exact H4|]. split.
  - exact (proj1 (monitor_loop_survives_cycle_errors E) 2 s (snd cycle) _ H1 H2 H4).
  - exact (proj2 (proj2 (proj2 (monitor_loop_survives_cycle_errors E))) 3 s H3 H0 H2).
Defined.

(** C9, as the claim has it, fails: the loop can end without a stop
    signal. With an interval of a thousand million minutes and nobody
    asking the monitor to stop, the loop runs one cycle, which raises
    nothing, and then ends on the wait's own error, the stop flag
    clear. *)
Lemma loop_ends_on_an_untimeable_wait :
  let s := snd (start Sample.healthy false
                  (snd (configure ["k"] ["d.com"] ∅
                          (initial_state "key" 1000000000)))) in
  (forall n, stop_requested Sample.healthy n = false)
  /\ fst (check_all Sample.healthy (snd (observe_stop Sample.healthy s))) = Ok tt
  /\ fst (_monitor_loop Sample.healthy 5 s) = Raise wait_error
  /\ cycle_starts (trace (snd (_monitor_loop Sample.healthy 5 s))) = 1
  /\ stop_event (self (snd (_monitor_loop Sample.healthy 5 s))) = false.
Proof.
  intros s. split; [reflexivity|]. vm_compute. repeat split.
Qed.

(** ** [start] with an initial check *)

Section Start.

Variable E : environment.

Lemma is_nil_false {A} (l : list A) : l <> [] -> is_nil l = false.
Proof. destruct l; [congruence | reflexivity]. Qed.


(** On a configured monitor that is not running, [start] with an initial
    check sets the flags, runs a cycle and then starts the thread. *)
Lemma start_unfold (s : state) :
  running (self s) = false ->
  keywords (self s) <> [] -> domains (self s) <> [] ->
  start E true s
  = (check_all E ;;
     thread_start ;;
     minutes <- gets (fun s => interval_minutes (self s)) ;;
     print (MsgStarted minutes)) (initial_check_begins s).
Proof.
  intros Hidle Hk Hd. unfold start.
  unfold bind at 1, gets at 1. rewrite Hidle.
  unfold bind at 1, gets at 1. unfold bind at 1, gets at 1.
  rewrite (is_nil_false _ Hk), (is_nil_false _ Hd). reflexivity.
Qed.




End Start.



(** * Further properties of the code *)

(** ** Configuration and the request sent to the provider *)

Lemma union_lookup_left_biased (a b : gmap string value) (k : string) :
  (a ∪ b) !! k = match a !! k with Some v => Some v | None => b !! k end.
Proof.
  rewrite lookup_union. destruct (a !! k), (b !! k); reflexivity.
Qed.

Lemma search_request_lookup (m : KeywordMonitor) (keyword k : string) :
  search_request m keyword !! k =
    match search_params m !! k with
    | Some v => Some v
    | None =>
        if decide (k = "api_key") then Some (VStr (api_key m))
        else if decide (k = "q") then Some (VStr keyword)
        else None
    end.
Proof.
  unfold search_request. rewrite union_lookup_left_biased.
  destruct (search_params m !! k); [reflexivity|].
  case_decide; [subst; now rewrite lookup_insert_eq|].
  rewrite lookup_insert_ne by done.
  case_decide; [subst; now rewrite lookup_insert_eq|].
  rewrite lookup_insert_ne by done. apply lookup_empty.
Qed.

(** X2. The request [search_keyword] sends after [configure]: under
    ["q"] the keyword and under ["api_key"] the monitor's key, unless
    the caller's parameters hold that very key, in which case the
    caller's value is sent instead (for ["q"]: the same query for every
    keyword); the engine is ["google"] unless the caller names another;
    every key of the caller is sent as given. *)
Theorem configured_request (kws doms : list string)
    (params : gmap string value) (s : state) (keyword : string) :
  let m := self (snd (configure kws doms params s)) in
  search_request m keyword !! "q"
    = Some (default (VStr keyword) (params !! "q"))
  /\ search_request m keyword !! "api_key"
     = Some (default (VStr (api_key (self s))) (params !! "api_key"))
  /\ search_request m keyword !! "engine"
     = Some (default (VStr "google") (params !! "engine"))
  /\ (forall k v, params !! k = Some v -> search_request m keyword !! k = Some v).
Proof.
  intros m.
  assert (Hsp : forall k, search_params m !! k =
            match params !! k with
            | Some v => Some v
            | None => default_search_params !! k
            end)
    by (intros k; apply union_lookup_left_biased).
  repeat split.
  - rewrite search_request_lookup, Hsp.
    destruct (params !! "q"); reflexivity.
  - rewrite search_request_lookup, Hsp.
    destruct (params !! "api_key"); reflexivity.
  - rewrite search_request_lookup, Hsp.
    destruct (params !! "engine"); reflexivity.
  - intros k v Hk. rewrite search_request_lookup, Hsp, Hk. reflexivity.
Qed.

Lemma configured_request_witness :
  let params : gmap string value := <["q" := VStr "fixed"]> ∅ in
  let m := self (snd (configure ["k"] ["d.com"] params Sample.fresh)) in
  params !! "q" = Some (VStr "fixed")
  /\ search_request m "k" !! "q" = Some (VStr "fixed").
Proof.
  intros params m.
  assert (H : params !! "q" = Some (VStr "fixed")) by reflexivity.
  split; [exact H|].
  exact (proj2 (proj2 (proj2
           (configured_request ["k"] ["d.com"] params Sample.fresh "k")))
           "q" (VStr "fixed") H).
Defined.

(** ** Steps related by a preorder *)

Section Preserve.

Context (R : state -> state -> Prop) `{!PreOrder R}.

Lemma preserves_ret {A} (a : A) : preserves R (ret a).
Proof. intros s r s' H. inversion H. reflexivity. Qed.

Lemma preserves_raise {A} (e : exn) : preserves R (@raise A e).
Proof. intros s r s' H. inversion H. reflexivity. Qed.

Lemma preserves_gets {A} (f : state -> A) : preserves R (gets f).
Proof. intros s r s' H. inversion H. reflexivity. Qed.

Lemma preserves_bind {A B} (c : M A) (k : A -> M B) :
  preserves R c -> (forall a, preserves R (k a)) -> preserves R (bind c k).
Proof.
  intros Hc Hk s r s' H. unfold bind in H.
  destruct (c s) as [[a|e] s1] eqn:Hcs.
  - transitivity s1; [eapply Hc | eapply Hk]; eassumption.
  - inversion H; subst. eapply Hc; eassumption.
Qed.

Lemma preserves_try_except {A} (c : M A) (h : exn -> M A) :
  preserves R c -> (forall e, preserves R (h e)) -> preserves R (try_except c h).
Proof.
  intros Hc Hh s r s' H. unfold try_except in H.
  destruct (c s) as [[a|e] s1] eqn:Hcs.
  - inversion H; subst. eapply Hc; eassumption.
  - transitivity s1; [eapply Hc | eapply Hh]; eassumption.
Qed.

Lemma preserves_for_each {A} (l : list A) (body : A -> M unit) :
  (forall x, preserves R (body x)) -> preserves R (for_each l body).
Proof.
  intros Hb. induction l as [|x l IH]; simpl.
  - apply preserves_ret.
  - apply preserves_bind; [apply Hb | intros _; exact IH].
Qed.

End Preserve.

#[local] Instance store_idle_preorder : PreOrder store_idle.
Proof.
  split.
  - intros s. repeat split.
  - intros s1 s2 s3 (A1 & B1 & C1) (A2 & B2 & C2). repeat split; congruence.
Qed.

#[local] Instance store_grows_preorder : PreOrder store_grows.
Proof.
  split.
  - intros s. exists []. now rewrite app_nil_r.
  - intros s1 s2 s3 (a1 & H1) (a2 & H2). exists (a1 ++ a2).
    now rewrite H2, H1, app_assoc.
Qed.

(** A step that leaves the store as it is. *)
Lemma store_grows_same (s s' : state) :
  collection s' = collection s -> store_grows s s'.
Proof. intros H. exists []. now rewrite app_nil_r. Qed.

Ltac preserve_step :=
  first
    [ apply preserves_bind; [typeclasses eauto | | intros ?]
    | apply preserves_ret; typeclasses eauto
    | apply preserves_raise; typeclasses eauto
    | apply preserves_gets; typeclasses eauto
    | apply preserves_try_except; [typeclasses eauto | | intros ?]
    | match goal with
      | |- preserves _ (match ?x with _ => _ end) => destruct x
      end ].

Ltac idle_prim :=
  let H := fresh "H" in
  intros ? ? ? H; inversion H; subst; repeat split.

Ltac step_prim :=
  let H := fresh "H" in
  intros ? ? ? H; inversion H; subst;
  apply store_grows_same; reflexivity.

(** ** What the rank checker touches *)

Section Effects.

Variable E : environment.

Lemma idle_emit (e : event) : preserves store_idle (emit e).
Proof. idle_prim. Qed.

Lemma idle_datetime_now : preserves store_idle (datetime_now E).
Proof. idle_prim. Qed.

Lemma idle_get_ranking_history (keyword domain : string) (limit : nat) :
  preserves store_idle (get_ranking_history E keyword domain limit).
Proof.
  intros s r s' H. unfold get_ranking_history in H.
  destruct (find_outcome E (n_find s)); inversion H; subst; repeat split.
Qed.

Lemma idle_scan_results (domain : string) (results : response)
    (sp : gmap string value) (l : list (gmap string value)) :
  preserves store_idle (scan_results domain results sp l).
Proof.
  induction l as [|r l IH]; simpl.
  - repeat first [apply idle_emit | preserve_step].
  - destruct (r !! "link") as [v|]; [|exact IH].
    destruct (py_in domain v) as [[|]|e];
      [repeat first [apply idle_emit | preserve_step] | exact IH
      | apply preserves_raise; typeclasses eauto].
Qed.

Lemma idle_check_changes (keyword domain : string) (rd : ranking_data) :
  preserves store_idle (_check_changes E keyword domain rd).
Proof.
  unfold _check_changes.
  repeat first
    [ apply idle_get_ranking_history | apply idle_datetime_now
    | apply idle_emit | preserve_step ].
Qed.

Lemma search_keyword_counts (keyword : string) (s : state) :
  exists resp s1,
    search_keyword E keyword s = (Ok resp, s1)
    /\ collection s1 = collection s /\ n_search s1 = S (n_search s)
    /\ n_insert s1 = n_insert s /\ clock s1 = clock s.
Proof.
  destruct (serp_api E (n_search s) (search_request (self s) keyword))
    as [resp|e] eqn:H.
  - exists resp. unfold search_keyword, google_search. run_monad. rewrite H.
    eexists. split; [reflexivity|]. repeat split.
  - exists empty_response. unfold search_keyword, google_search. run_monad.
    rewrite H. eexists. split; [reflexivity|]. repeat split.
Qed.

Lemma check_domain_ranking_counts (keyword domain : string) (s s' : state)
    (r : result ranking_data) :
  check_domain_ranking E keyword domain s = (r, s') ->
  collection s' = collection s /\ n_search s' = S (n_search s)
  /\ n_insert s' = n_insert s.
Proof.
  unfold check_domain_ranking. unfold bind at 1. simpl. unfold bind at 1.
  destruct (search_keyword_counts keyword
              (snd (print (MsgChecking keyword domain) s)))
    as (resp & s1 & Hs1 & Hc & Hn & Hi & _).
  simpl in Hs1. rewrite Hs1. unfold bind at 1, gets at 1. intros H.
  assert (Hidle : store_idle s1 s').
  { destruct (resp_is_empty resp || negb (bool_decide (is_Some (organic_results resp)))).
    - inversion H; subst. reflexivity.
    - destruct (organic_results resp).
      + eapply idle_scan_results; exact H.
      + inversion H; subst. reflexivity. }
  destruct Hidle as (A & B & C). simpl in Hc, Hn, Hi.
  repeat split; congruence.
Qed.

End Effects.

(** X3. Whatever it returns or raises, [check_domain_ranking] makes
    exactly one call to the provider and touches neither the store nor
    the monitor object. *)
Theorem check_domain_ranking_effects (E : environment)
    (keyword domain : string) (s s' : state) (r : result ranking_data) :
  check_domain_ranking E keyword domain s = (r, s') ->
  n_search s' = S (n_search s)
  /\ collection s' = collection s /\ n_insert s' = n_insert s
  /\ self s' = self s.
Proof.
  intros H.
  destruct (check_domain_ranking_counts E _ _ _ _ _ H) as (A & B & C).
  destruct (quiet_check_domain_ranking E _ _ _ _ _ H) as (D & _).
  repeat split; assumption.
Qed.

Lemma check_domain_ranking_effects_witness :
  let s := Sample.configured ["k"] ["d.com"] in
  let run := check_domain_ranking Sample.provider_down "k" "d.com" s in
  run = (fst run, snd run)
  /\ n_search (snd run) = S (n_search s)
  /\ collection (snd run) = collection s /\ n_insert (snd run) = n_insert s
  /\ self (snd run) = self s.
Proof.
  intros s run.
  assert (H : run = (fst run, snd run)) by (destruct run; reflexivity).
  split; [exact H|].
  exact (check_domain_ranking_effects Sample.provider_down "k" "d.com" s
           (snd run) (fst run) H).
Defined.

(** ** The store only grows *)

Section Grows.

Variable E : environment.

Lemma step_emit (e : event) : preserves store_grows (emit e).
Proof. step_prim. Qed.

Lemma step_datetime_now : preserves store_grows (datetime_now E).
Proof. step_prim. Qed.

Lemma step_set_self (f : KeywordMonitor -> KeywordMonitor) :
  preserves store_grows (modify (set_self f)).
Proof. step_prim. Qed.

Lemma step_get_ranking_history (keyword domain : string) (limit : nat) :
  preserves store_grows (get_ranking_history E keyword domain limit).
Proof.
  intros s r s' H. unfold get_ranking_history in H.
  destruct (find_outcome E (n_find s)); inversion H; subst;
    apply store_grows_same; reflexivity.
Qed.

Lemma step_google_search (params : gmap string value) :
  preserves store_grows (google_search E params).
Proof. step_prim. Qed.

Lemma step_observe_stop : preserves store_grows (observe_stop E).
Proof. step_prim. Qed.

Lemma step_thread_start : preserves store_grows thread_start.
Proof. step_prim. Qed.

Lemma step_insert_one (doc : document) : preserves store_grows (insert_one E doc).
Proof.
  intros s r s' H. unfold insert_one in H.
  destruct (insert_one_outcome E (n_insert s));
    [|destruct (document_refused E doc)]; inversion H; subst.
  - apply store_grows_same; reflexivity.
  - apply store_grows_same; reflexivity.
  - exists [doc]. reflexivity.
Qed.

Lemma step_save_ranking (keyword domain : string) (rd : ranking_data) :
  preserves store_grows (save_ranking E keyword domain rd).
Proof.
  unfold save_ranking.
  apply preserves_bind; [typeclasses eauto | apply step_datetime_now | intros now].
  apply preserves_bind; [typeclasses eauto | apply step_insert_one | intros id].
  apply preserves_bind;
    [typeclasses eauto | apply step_emit
    | intros _; apply preserves_ret; typeclasses eauto].
Qed.

Lemma step_scan_results (domain : string) (results : response)
    (sp : gmap string value) (l : list (gmap string value)) :
  preserves store_grows (scan_results domain results sp l).
Proof.
  induction l as [|r l IH]; simpl.
  - repeat first [apply step_emit | preserve_step].
  - destruct (r !! "link") as [v|]; [|exact IH].
    destruct (py_in domain v) as [[|]|e];
      [repeat first [apply step_emit | preserve_step] | exact IH
      | apply preserves_raise; typeclasses eauto].
Qed.

Ltac step_all :=
  repeat first
    [ apply step_emit | apply step_datetime_now | apply step_set_self
    | apply step_get_ranking_history | apply step_google_search
    | apply step_observe_stop | apply step_thread_start
    | apply step_save_ranking | apply step_scan_results
    | apply preserves_for_each; [typeclasses eauto | intros ?]
    | preserve_step ].

Lemma step_check_all : preserves store_grows (check_all E).
Proof.
  unfold check_all. unfold check_pair, check_domain_ranking, search_keyword,
    _check_changes. step_all.
Qed.

Lemma step_stop_event_wait (timeout : Z) :
  preserves store_grows (stop_event_wait E timeout).
Proof.
  intros s r s' H. rewrite stop_event_wait_run in H. inversion H; subst.
  apply store_grows_same; reflexivity.
Qed.

Lemma step_monitor_loop (fuel : nat) : preserves store_grows (_monitor_loop E fuel).
Proof.
  induction fuel as [|fuel IH]; simpl.
  - apply preserves_ret; typeclasses eauto.
  - unfold stop_event_is_set.
    apply preserves_bind; [typeclasses eauto | step_all | intros stopped].
    destruct stopped; [apply preserves_ret; typeclasses eauto|].
    apply preserves_bind; [typeclasses eauto | | intros _].
    { apply preserves_try_except;
        [typeclasses eauto | apply step_check_all | intros e; apply step_emit]. }
    apply preserves_bind; [typeclasses eauto | step_all | intros minutes].
    apply preserves_bind;
      [typeclasses eauto | apply step_stop_event_wait | intros _; exact IH].
Qed.

Lemma step_start (run_immediately : bool) :
  preserves store_grows (start E run_immediately).
Proof.
  unfold start, set_running_and_flag.
  apply preserves_bind; [typeclasses eauto | step_all | intros r].
  destruct r; [apply step_emit|].
  apply preserves_bind; [typeclasses eauto | step_all | intros kws].
  apply preserves_bind; [typeclasses eauto | step_all | intros doms].
  destruct (is_nil kws || is_nil doms); [apply preserves_raise; typeclasses eauto|].
  apply preserves_bind; [typeclasses eauto | apply step_set_self | intros _].
  apply preserves_bind; [typeclasses eauto | | intros _; step_all].
  destruct run_immediately; [|apply preserves_ret; typeclasses eauto].
  apply preserves_bind;
    [typeclasses eauto | apply step_emit | intros _; apply step_check_all].
Qed.

Lemma step_stop : preserves store_grows stop.
Proof. unfold stop, set_running_and_flag. step_all. Qed.

Lemma step_start_then_loop (run_immediately : bool) (fuel : nat) :
  preserves store_grows (start_then_loop E run_immediately fuel).
Proof.
  unfold start_then_loop.
  apply preserves_bind; [typeclasses eauto | step_all | intros before].
  apply preserves_bind; [typeclasses eauto | apply step_start | intros _].
  apply preserves_bind; [typeclasses eauto | step_all | intros after].
  destruct (before <? after); [|apply preserves_ret; typeclasses eauto].
  apply preserves_bind;
    [typeclasses eauto | apply step_monitor_loop
    | intros st; apply preserves_ret; typeclasses eauto].
Qed.

Lemma step_configure (kws doms : list string) (params : gmap string value) :
  preserves store_grows (configure kws doms params).
Proof. unfold configure. step_all. Qed.

End Grows.

(** X9. The monitor only appends to the store. Every operation of the
    monitor - [configure], a one-shot cycle, [start] followed by any
    number of turns of the loop, the loop alone, [stop] - whatever it
    returns or raises, leaves a store that is the old one with documents
    appended at the end: nothing stored is ever changed, removed or
    reordered. *)
Theorem monitor_only_appends (E : environment) (s : state) :
  (forall r s', run_once E s = (r, s') ->
     exists added, collection s' = collection s ++ added)
  /\ (forall run_immediately fuel r s',
        start_then_loop E run_immediately fuel s = (r, s') ->
        exists added, collection s' = collection s ++ added)
  /\ (forall fuel r s', _monitor_loop E fuel s = (r, s') ->
        exists added, collection s' = collection s ++ added)
  /\ (forall r s', stop s = (r, s') ->
        exists added, collection s' = collection s ++ added)
  /\ (forall kws doms params r s', configure kws doms params s = (r, s') ->
        exists added, collection s' = collection s ++ added).
Proof.
  split; [|split; [|split; [|split]]]; intros.
  - eapply step_check_all; eassumption.
  - eapply step_start_then_loop; eassumption.
  - eapply step_monitor_loop; eassumption.
  - eapply step_stop; eassumption.
  - eapply step_configure; eassumption.
Qed.

Lemma monitor_only_appends_witness :
  let s := Sample.configured ["k"] ["d.com"] in
  let run := start_then_loop Sample.healthy true 2 s in
  run = (fst run, snd run)
  /\ exists added, collection (snd run) = collection s ++ added.
Proof.
  intros s run.
  assert (H2 : run = (fst run, snd run)) by (destruct run; reflexivity).
  split; [exact H2|].
  exact (proj1 (proj2 (monitor_only_appends Sample.healthy s))
           true 2 (fst run) (snd run) H2).
Defined.

(** ** Queries on the store *)

Lemma matches_key_spec (keyword domain : string) (doc : document) :
  matches_key keyword domain doc = true <-> document_key doc = (keyword, domain).
Proof.
  unfold matches_key, document_key.
  rewrite andb_true_iff, !bool_decide_eq_true. split.
  - intros [-> ->]. reflexivity.
  - intros H. inversion H. auto.
Qed.

Lemma stored_for_spec (keyword domain : string) (docs : list document)
    (doc : document) :
  In doc (stored_for keyword domain docs)
  <-> In doc docs /\ document_key doc = (keyword, domain).
Proof.
  unfold stored_for. rewrite List.filter_In, matches_key_spec. reflexivity.
Qed.

Lemma sorted_app_inv {A} (R : A -> A -> Prop) (l1 l2 : list A) :
  StronglySorted R (l1 ++ l2) ->
  StronglySorted R l1 /\ StronglySorted R l2
  /\ (forall a b, In a l1 -> In b l2 -> R a b).
Proof.
  induction l1 as [|x l1 IH]; simpl; intros H.
  - repeat split; [constructor | exact H | intros a b []].
  - inversion H as [|? ? Hs Hx]; subst.
    destruct (IH Hs) as (H1 & H2 & H12).
    apply Forall_app in Hx. destruct Hx as [Hx1 Hx2].
    repeat split; [now constructor | exact H2|].
    intros a b [<-|Ha] Hb.
    + rewrite List.Forall_forall in Hx2. now apply Hx2.
    + now apply H12.
Qed.

(** X5. [get_ranking_history] with a positive limit, when the store
    answers: the documents returned are stored under the key, come most
    recent first, number the limit or all there are if fewer, and none
    of the documents of the key left out is more recent than one
    returned. The query changes nothing in the store. *)
Theorem get_ranking_history_most_recent (E : environment)
    (keyword domain : string) (limit : nat) (s : state) :
  0 < limit ->
  find_outcome E (n_find s) = None ->
  exists hist rest s',
    get_ranking_history E keyword domain limit s = (Ok hist, s')
    /\ collection s' = collection s
    /\ length hist = min limit (length (stored_for keyword domain (collection s)))
    /\ Permutation (hist ++ rest) (stored_for keyword domain (collection s))
    /\ StronglySorted newer_first hist
    /\ (forall a b, In a hist -> In b rest -> d_timestamp b <= d_timestamp a)
    /\ Forall (fun doc => In doc (collection s)
                          /\ document_key doc = (keyword, domain)) hist.
Proof.
  intros _ Hfind. unfold get_ranking_history. rewrite Hfind.
  set (sorted := sort_desc (List.filter (matches_key keyword domain) (collection s))).
  exists (firstn limit sorted), (skipn limit sorted). eexists.
  split; [reflexivity|]. simpl.
  assert (Hperm : Permutation sorted (stored_for keyword domain (collection s)))
    by apply sort_desc_perm.
  assert (Hsorted : StronglySorted newer_first
                      (firstn limit sorted ++ skipn limit sorted))
    by (rewrite firstn_skipn; apply sort_desc_sorted).
  destruct (sorted_app_inv _ _ _ Hsorted) as (H1 & _ & H12).
  split; [reflexivity|]. split; [|split; [|split; [|split]]].
  - rewrite length_take. unfold sorted, stored_for. now rewrite sort_desc_length.
  - now rewrite firstn_skipn.
  - exact H1.
  - exact H12.
  - apply List.Forall_forall. intros doc Hdoc.
    apply stored_for_spec. eapply Permutation_in; [exact Hperm|].
    rewrite <- (firstn_skipn limit sorted). apply in_or_app. now left.
Qed.

Lemma get_ranking_history_most_recent_witness :
  0 < 1
  /\ find_outcome Sample.healthy (n_find Sample.after_two_saves) = None
  /\ exists hist rest s',
       get_ranking_history Sample.healthy "k" "d.com" 1 Sample.after_two_saves
         = (Ok hist, s')
       /\ collection s' = collection Sample.after_two_saves
       /\ length hist
          = min 1 (length (stored_for "k" "d.com" (collection Sample.after_two_saves)))
       /\ Permutation (hist ++ rest)
            (stored_for "k" "d.com" (collection Sample.after_two_saves))
       /\ StronglySorted newer_first hist
       /\ (forall a b, In a hist -> In b rest -> d_timestamp b <= d_timestamp a)
       /\ Forall (fun doc => In doc (collection Sample.after_two_saves)
                             /\ document_key doc = ("k", "d.com")) hist.
Proof.
  split; [lia|]. split; [reflexivity|].
  apply (get_ranking_history_most_recent Sample.healthy "k" "d.com" 1
           Sample.after_two_saves); [lia | reflexivity].
Defined.

(** X6. [get_latest_ranking], when the store answers, returns [None]
    exactly when nothing is stored under the key, and otherwise a
    document stored under the key than which no document of the key is
    more recent. The query changes nothing in the store. *)
Theorem get_latest_ranking_is_newest (E : environment)
    (keyword domain : string) (s : state) :
  find_outcome E (n_find s) = None ->
  exists latest s',
    get_latest_ranking E keyword domain s = (Ok latest, s')
    /\ collection s' = collection s
    /\ match latest with
       | Some doc =>
           In doc (collection s) /\ document_key doc = (keyword, domain)
           /\ forall other,
                In other (collection s) ->
                document_key other = (keyword, domain) ->
                d_timestamp other <= d_timestamp doc
       | None =>
           forall other,
             In other (collection s) -> document_key other <> (keyword, domain)
       end.
Proof.
  intros Hfind. unfold get_latest_ranking. rewrite Hfind.
  do 2 eexists. split; [reflexivity|]. simpl. split; [reflexivity|].
  assert (Hperm := sort_desc_perm (stored_for keyword domain (collection s))).
  assert (Hsorted := sort_desc_sorted (stored_for keyword domain (collection s))).
  unfold stored_for in Hperm, Hsorted.
  destruct (sort_desc (List.filter (matches_key keyword domain) (collection s)))
    as [|doc rest]; simpl.
  - intros other Hin Hkey.
    assert (Hs : In other (stored_for keyword domain (collection s)))
      by (apply stored_for_spec; auto).
    eapply Permutation_in in Hs; [|symmetry; exact Hperm]. destruct Hs.
  - assert (Hdoc : In doc (stored_for keyword domain (collection s)))
      by (eapply Permutation_in; [exact Hperm | now left]).
    apply stored_for_spec in Hdoc. destruct Hdoc as [Hin Hkey].
    split; [exact Hin|]. split; [exact Hkey|].
    intros other Ho Hk.
    assert (Hs : In other (stored_for keyword domain (collection s)))
      by (apply stored_for_spec; auto).
    eapply Permutation_in in Hs; [|symmetry; exact Hperm].
    destruct Hs as [<-|Hrest]; [lia|].
    inversion Hsorted as [|? ? _ Hall]; subst.
    rewrite List.Forall_forall in Hall. exact (Hall _ Hrest).
Qed.

Lemma get_latest_ranking_is_newest_witness :
  find_outcome Sample.healthy (n_find Sample.after_two_saves) = None
  /\ exists latest s',
       get_latest_ranking Sample.healthy "k" "d.com" Sample.after_two_saves
         = (Ok latest, s')
       /\ collection s' = collection Sample.after_two_saves
       /\ match latest with
          | Some doc =>
              In doc (collection Sample.after_two_saves)
              /\ document_key doc = ("k", "d.com")
              /\ forall other,
                   In other (collection Sample.after_two_saves) ->
                   document_key other = ("k", "d.com") ->
                   d_timestamp other <= d_timestamp doc
          | None =>
              forall other,
                In other (collection Sample.after_two_saves) ->
                document_key other <> ("k", "d.com")
          end.
Proof.
  split; [reflexivity|].
  apply (get_latest_ranking_is_newest Sample.healthy "k" "d.com"
           Sample.after_two_saves).
  reflexivity.
Defined.

(** ** Saving and reading back *)

Lemma fold_insert_desc_newest (doc : document) (l : list document) :
  Forall (fun x => d_timestamp x < d_timestamp doc) l ->
  sort_desc (l ++ [doc]) = doc :: sort_desc l.
Proof.
  induction 1 as [|x l Hx Hl IH]; simpl; [reflexivity|].
  rewrite IH. simpl.
  destruct (Nat.leb_spec (d_timestamp doc) (d_timestamp x)); [lia | reflexivity].
Qed.

(** The history of a key after one more document of that key, later
    than every document stored under the key, is that document followed
    by the history before. *)
Lemma history_after_append (keyword domain : string) (docs : list document)
    (doc : document) :
  later_than_stored keyword domain (d_timestamp doc) docs ->
  document_key doc = (keyword, domain) ->
  history_of keyword domain (docs ++ [doc])
  = doc :: history_of keyword domain docs.
Proof.
  intros Hall Hkey. unfold history_of, stored_for.
  rewrite List.filter_app. simpl.
  rewrite (proj2 (matches_key_spec keyword domain doc) Hkey).
  apply fold_insert_desc_newest. exact Hall.
Qed.

Lemma saved_document_records (keyword domain : string) (now : nat)
    (rd : ranking_data) :
  records (saved_document keyword domain now rd) keyword domain rd.
Proof. unfold records. simpl. repeat split. Qed.

Lemma save_ranking_stores (E : environment) (keyword domain : string)
    (rd : ranking_data) (s : state) :
  insert_one_outcome E (n_insert s) = None ->
  document_refused E
    (saved_document keyword domain (wall_clock E (clock s)) rd) = None ->
  exists s',
    save_ranking E keyword domain rd s = (Ok (length (collection s)), s')
    /\ collection s'
       = collection s
         ++ [saved_document keyword domain (wall_clock E (clock s)) rd]
    /\ clock s' = S (clock s)
    /\ n_insert s' = S (n_insert s) /\ n_search s' = n_search s
    /\ n_find s' = n_find s /\ self s' = self s
    /\ trace s' = trace s ++ [EvInsert keyword domain;
                              EvPrint (MsgSaved keyword domain (length (collection s)))].
Proof.
  intros H Hdoc. unfold save_ranking, insert_one. run_monad.
  unfold saved_document in Hdoc. rewrite H, Hdoc.
  eexists. split; [reflexivity|]. simpl.
  repeat split. now rewrite <- app_assoc.
Qed.

Lemma save_ranking_refused (E : environment) (keyword domain : string)
    (rd : ranking_data) (s : state) (e : exn) :
  insert_one_outcome E (n_insert s) = None ->
  document_refused E
    (saved_document keyword domain (wall_clock E (clock s)) rd) = Some e ->
  exists s',
    save_ranking E keyword domain rd s = (Raise e, s')
    /\ collection s' = collection s.
Proof.
  intros H Hdoc. unfold save_ranking, insert_one. run_monad.
  unfold saved_document in Hdoc. rewrite H, Hdoc.
  eexists. split; reflexivity.
Qed.

(** X7. Saving and reading back. Provided the store accepts the write
    and answers the queries, and the time the save reads from the wall
    clock is strictly later than every timestamp already stored under
    the key, [save_ranking] returns the identifier of a new document
    that holds the observation's fields under the key and that time;
    right after, [get_latest_ranking] returns that document and
    [get_ranking_history] returns it first, followed by the history
    there was before. Nothing is assumed about the clock beyond that
    one reading: it need not advance between calls. *)
Theorem save_then_read_back (E : environment) (keyword domain : string)
    (rd : ranking_data) (s : state) :
  later_than_stored keyword domain (wall_clock E (clock s)) (collection s) ->
  insert_one_outcome E (n_insert s) = None ->
  document_refused E
    (saved_document keyword domain (wall_clock E (clock s)) rd) = None ->
  find_outcome E (n_find s) = None ->
  exists doc s1 s2,
    save_ranking E keyword domain rd s = (Ok (length (collection s)), s1)
    /\ collection s1 = collection s ++ [doc]
    /\ records doc keyword domain rd
    /\ d_timestamp doc = wall_clock E (clock s)
    /\ get_latest_ranking E keyword domain s1 = (Ok (Some doc), s2)
    /\ forall n,
         fst (get_ranking_history E keyword domain (S n) s1)
         = Ok (doc :: firstn n (history_of keyword domain (collection s))).
Proof.
  intros Hbefore Hins Hdoc Hfind.
  destruct (save_ranking_stores E keyword domain rd s Hins Hdoc)
    as (s1 & Hsave & Hcol & _ & _ & _ & Hnf & _).
  set (doc := saved_document keyword domain (wall_clock E (clock s)) rd) in *.
  assert (Hrec : records doc keyword domain rd) by apply saved_document_records.
  assert (Hkey : document_key doc = (keyword, domain)) by reflexivity.
  assert (Hhist := history_after_append keyword domain (collection s) doc
                     Hbefore Hkey).
  unfold history_of, stored_for in Hhist.
  exists doc, s1. eexists. split; [exact Hsave|].
  split; [exact Hcol|]. split; [exact Hrec|]. split; [reflexivity|]. split.
  - unfold get_latest_ranking. rewrite Hnf, Hfind, Hcol, Hhist. reflexivity.
  - intros n. unfold get_ranking_history, find_sorted.
    rewrite Hnf, Hfind, Hcol, Hhist. reflexivity.
Qed.

Lemma save_then_read_back_witness :
  later_than_stored "k" "d.com"
    (wall_clock Sample.healthy (clock Sample.after_two_saves))
    (collection Sample.after_two_saves)
  /\ insert_one_outcome Sample.healthy (n_insert Sample.after_two_saves) = None
  /\ document_refused Sample.healthy
       (saved_document "k" "d.com"
          (wall_clock Sample.healthy (clock Sample.after_two_saves))
          (Sample.current_at (VInt 3))) = None
  /\ find_outcome Sample.healthy (n_find Sample.after_two_saves) = None
  /\ exists doc s1 s2,
       save_ranking Sample.healthy "k" "d.com" (Sample.current_at (VInt 3))
         Sample.after_two_saves
         = (Ok (length (collection Sample.after_two_saves)), s1)
       /\ collection s1 = collection Sample.after_two_saves ++ [doc]
       /\ records doc "k" "d.com" (Sample.current_at (VInt 3))
       /\ d_timestamp doc
          = wall_clock Sample.healthy (clock Sample.after_two_saves)
       /\ get_latest_ranking Sample.healthy "k" "d.com" s1 = (Ok (Some doc), s2)
       /\ forall n,
            fst (get_ranking_history Sample.healthy "k" "d.com" (S n) s1)
            = Ok (doc :: firstn n (history_of "k" "d.com"
                                     (collection Sample.after_two_saves))).
Proof.
  assert (H1 : later_than_stored "k" "d.com"
                 (wall_clock Sample.healthy (clock Sample.after_two_saves))
                 (collection Sample.after_two_saves)).
  { unfold later_than_stored. simpl. repeat constructor. }
  split; [exact H1|]. split; [reflexivity|]. split; [reflexivity|].
  split; [reflexivity|].
  apply (save_then_read_back Sample.healthy "k" "d.com"
           (Sample.current_at (VInt 3)) Sample.after_two_saves H1);
    reflexivity.
Defined.

(** X8. Change detection across consecutive observations. Provided the
    store accepts the write and answers the query, and the time the
    save reads from the wall clock is strictly later than every
    timestamp already stored under the key, saving an observation and
    then checking for changes, as a cycle does, reports a change
    exactly when an observation was already stored under the key and
    the position of the latest of them differs from the new position;
    the change reported goes from that earlier position to the new one.
    A first observation of a key is never a change. *)
Theorem save_then_check_compares_with_latest (E : environment)
    (keyword domain : string) (rd : ranking_data) (s : state) :
  later_than_stored keyword domain (wall_clock E (clock s)) (collection s) ->
  insert_one_outcome E (n_insert s) = None ->
  document_refused E
    (saved_document keyword domain (wall_clock E (clock s)) rd) = None ->
  find_outcome E (n_find s) = None ->
  exists r s' delta,
    (save_ranking E keyword domain rd ;;
     _check_changes E keyword domain rd) s = (r, s')
    /\ trace s' = trace s ++ delta
    /\ reported_changes delta =
         match head (history_of keyword domain (collection s)) with
         | Some previous =>
             if py_ne (position rd) (d_position previous)
             then [(d_position previous, position rd)]
             else []
         | None => []
         end.
Proof.
  intros Hbefore Hins Hdoc Hfind.
  destruct (save_ranking_stores E keyword domain rd s Hins Hdoc)
    as (s1 & Hsave & Hcol & _ & _ & _ & Hnf & Hself & Htr).
  set (doc := saved_document keyword domain (wall_clock E (clock s)) rd) in *.
  assert (Hkey : document_key doc = (keyword, domain)) by reflexivity.
  assert (Hhist := history_after_append keyword domain (collection s) doc
                     Hbefore Hkey).
  clearbody doc.
  unfold bind at 1. rewrite Hsave.
  unfold _check_changes, get_ranking_history. unfold bind at 1.
  rewrite Hnf, Hfind. unfold find_sorted. rewrite Hcol.
  change (sort_desc (List.filter (matches_key keyword domain) (collection s ++ [doc])))
    with (history_of keyword domain (collection s ++ [doc])).
  rewrite Hhist.
  destruct (history_of keyword domain (collection s)) as [|previous older]; simpl.
  - run_monad. do 3 eexists. split; [reflexivity|]. simpl. rewrite Htr.
    split; [rewrite <- app_assoc; reflexivity | reflexivity].
  - destruct (py_ne (position rd) (d_position previous)).
    + run_monad. rewrite Hself.
      destruct (on_change_callback (self s)) as [f|].
      * run_monad.
        match goal with
        | |- context [f ?i] => destruct (f i)
        end; run_monad;
          (do 3 eexists; split; [reflexivity|]; simpl; rewrite Htr;
           split; [rewrite <- !app_assoc; reflexivity | reflexivity]).
      * run_monad. do 3 eexists. split; [reflexivity|]. simpl. rewrite Htr.
        split; [rewrite <- !app_assoc; reflexivity | reflexivity].
    + run_monad. do 3 eexists. split; [reflexivity|]. simpl. rewrite Htr.
      split; [rewrite <- app_assoc; reflexivity | reflexivity].
Qed.

Lemma save_then_check_compares_with_latest_witness :
  later_than_stored "k" "d.com"
    (wall_clock Sample.healthy (clock Sample.after_two_saves))
    (collection Sample.after_two_saves)
  /\ insert_one_outcome Sample.healthy (n_insert Sample.after_two_saves) = None
  /\ document_refused Sample.healthy
       (saved_document "k" "d.com"
          (wall_clock Sample.healthy (clock Sample.after_two_saves))
          (Sample.current_at (VInt 3))) = None
  /\ find_outcome Sample.healthy (n_find Sample.after_two_saves) = None
  /\ exists r s' delta,
       (save_ranking Sample.healthy "k" "d.com" (Sample.current_at (VInt 3)) ;;
        _check_changes Sample.healthy "k" "d.com" (Sample.current_at (VInt 3)))
         Sample.after_two_saves = (r, s')
       /\ trace s' = trace Sample.after_two_saves ++ delta
       /\ reported_changes delta =
            match head (history_of "k" "d.com" (collection Sample.after_two_saves)) with
            | Some previous =>
                if py_ne (position (Sample.current_at (VInt 3))) (d_position previous)
                then [(d_position previous, position (Sample.current_at (VInt 3)))]
                else []
            | None => []
            end.
Proof.
  assert (H1 : later_than_stored "k" "d.com"
                 (wall_clock Sample.healthy (clock Sample.after_two_saves))
                 (collection Sample.after_two_saves)).
  { unfold later_than_stored. simpl. repeat constructor. }
  split; [exact H1|]. split; [reflexivity|]. split; [reflexivity|].
  split; [reflexivity|].
  apply (save_then_check_compares_with_latest Sample.healthy "k" "d.com"
           (Sample.current_at (VInt 3)) Sample.after_two_saves H1);
    reflexivity.
Defined.

(** The condition on the clock is needed. With the wall clock set back
    below the timestamps already stored, the document just saved is not
    the most recent of its key: the check takes the older of the two
    stored observations as the baseline and reports a change from
    position 5 to position 7, although the latest stored position was
    already 7. *)
Example set_back_clock_compares_with_stale :
  let s := Sample.stored [Sample.observation 5 (VInt 5);
                          Sample.observation 6 (VInt 7)] in
  let run :=
    (save_ranking Sample.clock_set_back "k" "d.com" (Sample.current_at (VInt 7)) ;;
     _check_changes Sample.clock_set_back "k" "d.com" (Sample.current_at (VInt 7)))
      s in
  fst run = Ok tt
  /\ reported_changes (trace (snd run)) = [(VInt 5, VInt 7)]
  /\ map d_position (history_of "k" "d.com" (collection s)) = [VInt 7; VInt 5].
Proof. vm_compute. repeat split. Qed.

(** ** What a completed cycle has done *)

Section Cycle.

Variable E : environment.

Lemma check_pair_ok (keyword domain : string) (s s' : state) :
  check_pair E keyword domain s = (Ok tt, s') ->
  exists doc,
    collection s' = collection s ++ [doc]
    /\ document_key doc = (keyword, domain)
    /\ n_search s' = S (n_search s) /\ n_insert s' = S (n_insert s).
Proof.
  unfold check_pair. unfold bind at 1.
  destruct (check_domain_ranking E keyword domain s) as [[rd|e] s1] eqn:Hcdr;
    [|discriminate].
  destruct (check_domain_ranking_counts E _ _ _ _ _ Hcdr) as (C1 & S1 & I1).
  unfold bind at 1.
  destruct (insert_one_outcome E (n_insert s1)) as [e|] eqn:Hins.
  { destruct (save_ranking_raise E keyword domain rd s1 e Hins) as (s2 & -> & _).
    discriminate. }
  destruct (document_refused E
              (saved_document keyword domain (wall_clock E (clock s1)) rd))
    as [e|] eqn:Href.
  { destruct (save_ranking_refused E keyword domain rd s1 e Hins Href)
      as (s2 & -> & _).
    discriminate. }
  destruct (save_ranking_stores E keyword domain rd s1 Hins Href)
    as (s2 & -> & C2 & _ & I2 & S2 & _).
  unfold bind at 1.
  destruct (_check_changes E keyword domain rd s2) as [[[]|e] s3] eqn:Hcc;
    [|discriminate].
  destruct (idle_check_changes E _ _ _ _ _ _ Hcc) as (C3 & S3 & I3).
  unfold time_sleep. intros H. inversion H; subst. simpl.
  exists (saved_document keyword domain (wall_clock E (clock s1)) rd).
  unfold document_key. simpl.
  repeat split; congruence.
Qed.

Lemma run_pairs_ok (pairs : list (string * string)) (s s' : state) :
  run_pairs E pairs s = (Ok tt, s') ->
  exists added,
    collection s' = collection s ++ added
    /\ map document_key added = pairs
    /\ n_search s' = n_search s + length pairs
    /\ n_insert s' = n_insert s + length pairs.
Proof.
  unfold run_pairs. revert s. induction pairs as [|[k d] pairs IH]; intros s; simpl.
  - intros H. inversion H; subst. exists []. rewrite app_nil_r.
    repeat split; lia.
  - unfold bind at 1.
    destruct (check_pair E k d s) as [[[]|e] s1] eqn:Hpair; [|discriminate].
    intros H. destruct (check_pair_ok _ _ _ _ Hpair) as (doc & C1 & K1 & S1 & I1).
    destruct (IH _ H) as (added & C2 & K2 & S2 & I2).
    exists (doc :: added). repeat split.
    + rewrite C2, C1, <- app_assoc. reflexivity.
    + simpl. now rewrite K1, K2.
    + simpl. lia.
    + simpl. lia.
Qed.

Lemma check_all_ok (s s' : state) :
  check_all E s = (Ok tt, s') ->
  exists added,
    collection s' = collection s ++ added
    /\ map document_key added = all_pairs (self s)
    /\ n_search s' = n_search s + length (all_pairs (self s))
    /\ n_insert s' = n_insert s + length (all_pairs (self s)).
Proof.
  rewrite check_all_unfold. unfold bind at 1.
  destruct (run_pairs E (all_pairs (self s)) (cycle_opened E s))
    as [[[]|e] s1] eqn:Hrun; [|discriminate].
  intros H. revert H. run_monad. intros H. inversion H; subst. simpl.
  destruct (run_pairs_ok _ _ _ Hrun) as (added & C & K & S1 & I1).
  exists added. repeat split; assumption.
Qed.

Lemma search_keyword_typed (keyword : string) (s : state) :
  dependable E ->
  exists resp s1,
    search_keyword E keyword s = (Ok resp, s1)
    /\ forall l, organic_results resp = Some l -> Forall link_is_string l.
Proof.
  intros (_ & _ & _ & Hty).
  destruct (serp_api E (n_search s) (search_request (self s) keyword))
    as [resp|e] eqn:H.
  - destruct (search_keyword_ok E keyword s resp H) as (s1 & Hs1 & _).
    exists resp, s1. split; [exact Hs1|]. intros l Hl. eapply Hty; eassumption.
  - destruct (search_keyword_raise E keyword s e H) as (s1 & Hs1 & _).
    exists empty_response, s1. split; [exact Hs1|]. discriminate.
Qed.

Lemma check_domain_ranking_returns (keyword domain : string) (s : state) :
  dependable E ->
  exists rd s1, check_domain_ranking E keyword domain s = (Ok rd, s1).
Proof.
  intros Hdep. unfold check_domain_ranking. unfold bind at 1. simpl.
  unfold bind at 1.
  destruct (search_keyword_typed keyword
              (snd (print (MsgChecking keyword domain) s)) Hdep)
    as (resp & s1 & Hs1 & Hty).
  simpl in Hs1. rewrite Hs1. unfold bind at 1, gets at 1.
  destruct (organic_results resp) as [l|] eqn:Horg.
  - destruct (resp_is_empty resp || negb (bool_decide (is_Some (Some l)))).
    + do 2 eexists. reflexivity.
    + destruct (scan_results_first_match domain resp (search_params (self s1))
                  l s1 (Hty l eq_refl)) as (rd & s2 & Hrun & _).
      now exists rd, s2.
  - rewrite bool_decide_eq_false_2 by (intros [x Hx]; discriminate).
    rewrite orb_true_r. do 2 eexists. reflexivity.
Qed.

Lemma check_changes_returns (keyword domain : string) (rd : ranking_data)
    (s : state) :
  dependable E -> listener_returns (self s) ->
  exists s', _check_changes E keyword domain rd s = (Ok tt, s').
Proof.
  intros (_ & _ & Hfind & _) Hcb. unfold _check_changes, get_ranking_history.
  unfold bind at 1. rewrite Hfind.
  destruct (Nat.leb_spec 2 (length (find_sorted keyword domain 2 (collection s))))
    as [Hlen|Hlen]; [|eexists; reflexivity].
  destruct (find_sorted keyword domain 2 (collection s) !! 1) as [previous|] eqn:Hp.
  2:{ apply lookup_ge_None in Hp. lia. }
  destruct (py_ne (position rd) (d_position previous));
    [|eexists; reflexivity].
  run_monad. destruct (on_change_callback (self s)) as [f|] eqn:Hf;
    [|eexists; reflexivity].
  run_monad. rewrite (Hcb f _ Hf). eexists. reflexivity.
Qed.

Lemma check_pair_returns (keyword domain : string) (s : state) :
  dependable E -> listener_returns (self s) ->
  exists s', check_pair E keyword domain s = (Ok tt, s').
Proof.
  intros Hdep Hcb. unfold check_pair. unfold bind at 1.
  destruct (check_domain_ranking_returns keyword domain s Hdep)
    as (rd & s1 & Hcdr).
  rewrite Hcdr.
  destruct (quiet_check_domain_ranking E _ _ _ _ _ Hcdr) as (Self1 & _).
  unfold bind at 1.
  destruct (save_ranking_stores E keyword domain rd s1 (proj1 Hdep _)
              (proj1 (proj2 Hdep) _))
    as (s2 & -> & _ & _ & _ & _ & _ & Self2 & _).
  unfold bind at 1.
  destruct (check_changes_returns keyword domain rd s2 Hdep) as (s3 & ->).
  { now rewrite Self2, Self1. }
  eexists. reflexivity.
Qed.

Lemma run_pairs_returns (pairs : list (string * string)) (s : state) :
  dependable E -> listener_returns (self s) ->
  exists s', run_pairs E pairs s = (Ok tt, s').
Proof.
  intros Hdep. unfold run_pairs. revert s.
  induction pairs as [|[k d] pairs IH]; intros s Hcb; simpl.
  - eexists. reflexivity.
  - unfold bind at 1.
    destruct (check_pair_returns k d s Hdep Hcb) as (s1 & Hpair).
    simpl. rewrite Hpair.
    destruct (quiet_check_pair E _ _ _ _ _ Hpair) as (Self1 & _).
    apply IH. now rewrite Self1.
Qed.

End Cycle.

(** X10. A cycle that completes has made exactly one call to the
    provider and stored exactly one document for each keyword-domain
    pair, and the documents were appended in the order of the pairs:
    keyword by keyword, and for each keyword domain by domain. *)
Theorem completed_cycle_stores_every_pair (E : environment) (s s' : state) :
  check_all E s = (Ok tt, s') ->
  exists added,
    collection s' = collection s ++ added
    /\ map document_key added
       = list_prod (keywords (self s)) (domains (self s))
    /\ length added = length (keywords (self s)) * length (domains (self s))
    /\ n_search s' = n_search s + length added
    /\ n_insert s' = n_insert s + length added.
Proof.
  intros H. destruct (check_all_ok E _ _ H) as (added & C & K & S1 & I1).
  assert (Hlen : length added = length (all_pairs (self s)))
    by (rewrite <- K; now rewrite length_map).
  exists added. split; [exact C|]. split; [exact K|]. split; [|split].
  - rewrite Hlen. unfold all_pairs. apply length_prod.
  - now rewrite Hlen.
  - now rewrite Hlen.
Qed.

Lemma completed_cycle_stores_every_pair_witness :
  let s := Sample.configured ["k1"; "k2"] ["other.org"; "d.com"] in
  let run := check_all Sample.healthy s in
  run = (Ok tt, snd run)
  /\ exists added,
       collection (snd run) = collection s ++ added
       /\ map document_key added
          = list_prod (keywords (self s)) (domains (self s))
       /\ length added = length (keywords (self s)) * length (domains (self s))
       /\ n_search (snd run) = n_search s + length added
       /\ n_insert (snd run) = n_insert s + length added.
Proof.
  intros s run.
  assert (H : run = (Ok tt, snd run)) by (vm_compute; reflexivity).
  split; [exact H|].
  exact (completed_cycle_stores_every_pair Sample.healthy s (snd run) H).
Defined.

(** X11. Probe failures never abort a cycle. Whether the provider
    answers, fails on some calls or fails on all of them, [check_all]
    completes and has stored one document per pair, provided that
    nothing else fails: the store accepts every write and refuses no
    document, the store answers every query, every link the provider
    returns is a string, and the listener, if any, returns. Each of
    these is needed: a refused document, a failed write or query, a
    link that is not a string and a failing listener each end the
    cycle with the error. *)
Theorem probe_failures_never_abort_a_cycle (E : environment) (s : state) :
  (forall n, insert_one_outcome E n = None) ->
  (forall doc, document_refused E doc = None) ->
  (forall n, find_outcome E n = None) ->
  (forall n params resp l,
     serp_api E n params = Ok resp -> organic_results resp = Some l ->
     Forall link_is_string l) ->
  listener_returns (self s) ->
  exists s' added,
    check_all E s = (Ok tt, s')
    /\ collection s' = collection s ++ added
    /\ map document_key added
       = list_prod (keywords (self s)) (domains (self s)).
Proof.
  intros Hins Href Hfind Hty Hcb.
  assert (Hdep : dependable E) by (repeat split; assumption).
  destruct (run_pairs_returns E (all_pairs (self s)) (cycle_opened E s) Hdep Hcb)
    as (s1 & Hrun).
  assert (Hall : exists s', check_all E s = (Ok tt, s')).
  { rewrite check_all_unfold. unfold bind at 1. rewrite Hrun.
    eexists. reflexivity. }
  destruct Hall as (s' & Hall).
  destruct (check_all_ok E _ _ Hall) as (added & C & K & _).
  now exists s', added.
Qed.

Lemma probe_failures_never_abort_a_cycle_witness :
  let s := Sample.configured ["k1"; "k2"] ["d.com"] in
  (forall n, insert_one_outcome Sample.provider_down n = None)
  /\ (forall doc, document_refused Sample.provider_down doc = None)
  /\ (forall n, find_outcome Sample.provider_down n = None)
  /\ (forall n params resp l,
        serp_api Sample.provider_down n params = Ok resp ->
        organic_results resp = Some l -> Forall link_is_string l)
  /\ listener_returns (self s)
  /\ exists s' added,
       check_all Sample.provider_down s = (Ok tt, s')
       /\ collection s' = collection s ++ added
       /\ map document_key added
          = list_prod (keywords (self s)) (domains (self s)).
Proof.
  intros s.
  assert (H1 : forall n, insert_one_outcome Sample.provider_down n = None)
    by reflexivity.
  assert (H2 : forall doc, document_refused Sample.provider_down doc = None)
    by reflexivity.
  assert (H3 : forall n, find_outcome Sample.provider_down n = None)
    by reflexivity.
  assert (H4 : forall n params resp l,
             serp_api Sample.provider_down n params = Ok resp ->
             organic_results resp = Some l -> Forall link_is_string l).
  { intros n params resp l H. discriminate H. }
  assert (H5 : listener_returns (self s)).
  { intros f info H. discriminate H. }
  split; [exact H1|]. split; [exact H2|]. split; [exact H3|].
  split; [exact H4|]. split; [exact H5|].
  exact (probe_failures_never_abort_a_cycle Sample.provider_down s
           H1 H2 H3 H4 H5).
Defined.

(** A position that does not fit in eight bytes: the provider answers,
    the driver refuses the document, and the error ends the cycle
    before anything is stored. *)
Example wide_position_aborts_the_cycle :
  let run := check_all Sample.provider_wide_position
               (Sample.configured ["k1"; "k2"] ["d.com"]) in
  fst run = Raise (OverflowError "MongoDB can only handle up to 8-byte ints")
  /\ collection (snd run) = []
  /\ n_search (snd run) = 1.
Proof. vm_compute. repeat split. Qed.

(** ** Stopping *)

Section Stopping.

Variable E : environment.

(** Once the flag is seen set at the head of a turn, the loop returns
    without doing anything more. *)
Lemma loop_returns_when_seen_set (fuel : nat) (s : state) :
  stop_event (self (snd (observe_stop E s))) = true ->
  _monitor_loop E (S fuel) s = (Ok Returned, snd (observe_stop E s)).
Proof.
  intros Hflag. cbn [_monitor_loop]. unfold stop_event_is_set.
  unfold bind at 1. unfold bind at 1. unfold gets at 1.
  change (observe_stop E s) with (Ok tt, snd (observe_stop E s)).
  cbn iota. rewrite Hflag. reflexivity.
Qed.

Lemma observe_stop_keeps_flag (s : state) :
  stop_event (self s) = true ->
  stop_event (self (snd (observe_stop E s))) = true.
Proof. intros H. simpl. now destruct (stop_requested E (n_observe s)). Qed.

Lemma observe_stop_hit (s : state) :
  stop_requested E (n_observe s) = true ->
  stop_event (self (snd (observe_stop E s))) = true.
Proof. intros H. simpl. now rewrite H. Qed.

Lemma observe_stop_clear (s : state) :
  stop_event (self (snd (observe_stop E s))) = false ->
  stop_requested E (n_observe s) = false /\ stop_event (self s) = false.
Proof.
  simpl. destruct (stop_requested E (n_observe s)); simpl; [discriminate | auto].
Qed.

Lemma after_wait_hit (s : state) :
  stop_requested E (n_observe s) = true ->
  stop_event (self (after_wait E s)) = true.
Proof. intros H. rewrite after_wait_eq. simpl. now rewrite H. Qed.

Lemma cycle_starts_app (l1 l2 : list event) :
  cycle_starts (l1 ++ l2) = cycle_starts l1 + cycle_starts l2.
Proof.
  induction l1 as [|e l1 IH]; simpl; [reflexivity|].
  destruct e as [m| | | | | | | |]; simpl; try exact IH.
  destruct m; simpl; rewrite IH; reflexivity.
Qed.

Lemma cycle_starts_inside_cycle (l : list event) :
  Forall inside_cycle l -> cycle_starts l = 0.
Proof.
  induction 1 as [|e l He Hl IH]; simpl; [reflexivity|].
  destruct e as [m| | | | | | | |]; simpl in *; try exact IH.
  destruct m; simpl in *; try exact IH. contradiction.
Qed.

Lemma cycle_starts_one_cycle (s s' : state) (c : list event) :
  one_cycle E s s' c -> cycle_starts c = 1.
Proof.
  intros (_ & delta & -> & Hd). simpl. now rewrite cycle_starts_inside_cycle.
Qed.

(** When a stop request reaches the loop at its [k]-th look at the flag
    from now and the platform can time the wait, the loop returns, and
    neither twice the number of cycles it has begun nor twice the number
    of waits it has made exceeds [k + 1]. *)
Lemma loop_returns_after_request (fuel : nat) :
  forall (s : state) (k : nat),
    (wait_timeout (self s) <= timeout_max E)%Z ->
    stop_requested E (n_observe s + k) = true ->
    k + 1 < 2 * fuel ->
    exists s' delta,
      _monitor_loop E fuel s = (Ok Returned, s')
      /\ stop_event (self s') = true
      /\ trace s' = trace s ++ delta
      /\ 2 * cycle_starts delta <= k + 1
      /\ 2 * waits delta <= k + 1.
Proof.
  induction fuel as [|fuel IH]; intros s k Hfit Hreq Hfuel; [lia|].
  destruct (stop_event (self (snd (observe_stop E s)))) eqn:Hflag.
  - rewrite (loop_returns_when_seen_set fuel s Hflag).
    exists (snd (observe_stop E s)), [].
    split; [reflexivity|]. split; [exact Hflag|].
    split; [simpl; now rewrite app_nil_r|]. simpl. lia.
  - destruct (observe_stop_clear s Hflag) as (Hno & Hclear).
    destruct (check_all E (snd (observe_stop E s))) as [r s1] eqn:Hcycle.
    rewrite (monitor_loop_turn E fuel s s1 r Hno Hclear Hcycle).
    destruct (check_all_one_cycle E _ _ _ Hcycle) as (Self1 & O1 & _ & c & Hc).
    destruct (after_cycle_fields r s1)
      as (Self2 & O2 & _ & err & Herr & Hwerr & Hshape).
    destruct (after_wait_fields E (after_cycle r s1)) as (Tw & O3 & _ & _ & Hi).
    assert (Hint : interval_minutes (self (after_cycle r s1))
                   = interval_minutes (self s))
      by (rewrite Self2, Self1; apply observe_stop_interval).
    assert (Hfit1 : (wait_timeout (self (after_cycle r s1)) <= timeout_max E)%Z)
      by (unfold wait_timeout in *; now rewrite Hint).
    assert (Hfit2 : (wait_timeout (self (after_wait E (after_cycle r s1)))
                     <= timeout_max E)%Z)
      by (unfold wait_timeout in *; now rewrite Hi, Hint).
    rewrite (wait_fits E _ Hfit1).
    assert (Hobs : n_observe (after_cycle r s1) = S (n_observe s))
      by (rewrite O2, O1; reflexivity).
    assert (Htrace : trace (after_wait E (after_cycle r s1))
                     = trace s ++ c ++ err
                       ++ [EvWait (interval_minutes (self (after_cycle r s1)) * 60)]).
    { destruct Hc as (Hc & _). rewrite Tw, Herr, Hc. simpl.
      rewrite <- !app_assoc. reflexivity. }
    assert (Hwc : waits c = 0) by (eapply waits_one_cycle; exact Hc).
    assert (Hcc : cycle_starts c = 1) by (eapply cycle_starts_one_cycle; exact Hc).
    assert (Hcerr : cycle_starts err = 0)
      by (destruct r as [[]|e]; subst err; reflexivity).
    destruct k as [|[|k]].
    + rewrite Nat.add_0_r in Hreq. congruence.
    + destruct fuel as [|fuel]; [lia|].
      assert (Hset : stop_event (self (after_wait E (after_cycle r s1))) = true).
      { apply after_wait_hit. rewrite Hobs.
        replace (S (n_observe s)) with (n_observe s + 1) by lia. exact Hreq. }
      rewrite (loop_returns_when_seen_set fuel _ (observe_stop_keeps_flag _ Hset)).
      eexists. eexists. split; [reflexivity|].
      split; [apply observe_stop_keeps_flag; exact Hset|].
      split; [simpl trace at 1; exact Htrace|].
      rewrite !cycle_starts_app, !waits_app, Hwc, Hwerr, Hcc, Hcerr. simpl. lia.
    + destruct (IH (after_wait E (after_cycle r s1)) k Hfit2)
        as (s' & delta & Hrun & Hf & Ht & Hcs & Hw).
      * rewrite O3, Hobs.
        replace (S (S (n_observe s)) + k) with (n_observe s + S (S k)) by lia.
        exact Hreq.
      * lia.
      * exists s'. eexists. split; [exact Hrun|]. split; [exact Hf|]. split.
        -- rewrite Ht, Htrace. rewrite <- !app_assoc. reflexivity.
        -- rewrite !cycle_starts_app, !waits_app, Hwc, Hwerr, Hcc, Hcerr.
           simpl. lia.
Qed.

End Stopping.

(** X12. [stop] on a running monitor returns normally: it clears
    [running], sets the stop flag, joins the thread if there is one
    (five seconds at most) and reports; the store is untouched. From
    then on the loop, at its next look at the flag, returns without
    running a cycle or waiting, and a second [stop] only reports that
    the monitor is not running. *)
Theorem stop_ends_the_loop (s : state) :
  running (self s) = true ->
  exists s1,
    stop s = (Ok tt, s1)
    /\ running (self s1) = false /\ stop_event (self s1) = true
    /\ collection s1 = collection s
    /\ trace s1 =
         trace s ++ [EvPrint MsgStopping]
         ++ match thread (self s) with
            | Some tid => [EvThreadJoin tid 5]
            | None => []
            end
         ++ [EvPrint MsgStopped]
    /\ (forall E fuel,
          exists s2,
            _monitor_loop E (S fuel) s1 = (Ok Returned, s2)
            /\ trace s2 = trace s1 /\ collection s2 = collection s1
            /\ n_search s2 = n_search s1)
    /\ (exists s3,
          stop s1 = (Ok tt, s3)
          /\ trace s3 = trace s1 ++ [EvPrint MsgNotRunning]).
Proof.
  intros Hrun.
  assert (Hstop : exists s1,
    stop s = (Ok tt, s1)
    /\ running (self s1) = false /\ stop_event (self s1) = true
    /\ collection s1 = collection s
    /\ trace s1 =
         trace s ++ [EvPrint MsgStopping]
         ++ match thread (self s) with
            | Some tid => [EvThreadJoin tid 5]
            | None => []
            end
         ++ [EvPrint MsgStopped]).
  { unfold stop, set_running_and_flag. run_monad. rewrite Hrun. simpl.
    destruct (thread (self s)) as [tid|]; run_monad;
      (eexists; split; [reflexivity|]; simpl;
       repeat split; rewrite <- !app_assoc; reflexivity). }
  destruct Hstop as (s1 & Hs & Hr & Hf & Hc & Ht).
  exists s1. split; [exact Hs|]. split; [exact Hr|]. split; [exact Hf|].
  split; [exact Hc|]. split; [exact Ht|]. split.
  - intros E fuel. exists (snd (observe_stop E s1)). split.
    + apply loop_returns_when_seen_set, observe_stop_keeps_flag, Hf.
    + repeat split.
  - unfold stop. run_monad. rewrite Hr. simpl. eexists. split; reflexivity.
Qed.

Lemma stop_ends_the_loop_witness :
  running (self Sample.started) = true
  /\ exists s1,
       stop Sample.started = (Ok tt, s1)
       /\ running (self s1) = false /\ stop_event (self s1) = true
       /\ collection s1 = collection Sample.started
       /\ trace s1 =
            trace Sample.started ++ [EvPrint MsgStopping]
            ++ match thread (self Sample.started) with
               | Some tid => [EvThreadJoin tid 5]
               | None => []
               end
            ++ [EvPrint MsgStopped]
       /\ (forall E fuel,
             exists s2,
               _monitor_loop E (S fuel) s1 = (Ok Returned, s2)
               /\ trace s2 = trace s1 /\ collection s2 = collection s1
               /\ n_search s2 = n_search s1)
       /\ (exists s3,
             stop s1 = (Ok tt, s3)
             /\ trace s3 = trace s1 ++ [EvPrint MsgNotRunning]).
Proof.
  split; [reflexivity|].
  apply (stop_ends_the_loop Sample.started). reflexivity.
Defined.

(** X13. The loop honours a stop request. Suppose the interval gives a
    timeout the platform can time, and a request reaches the loop at its
    [k]-th look at the stop flag (the looks alternate: head of a turn,
    then the wait). Then the loop returns with the flag set as soon as
    it is given enough turns, and by then it has begun at most
    [(k + 1) / 2] cycles and waited at most [(k + 1) / 2] times: a
    request seen at the head of a turn lets no cycle start, and a
    request that arrives during a wait lets no further cycle start. *)
Theorem loop_returns_once_stop_is_requested (E : environment) (fuel : nat)
    (s : state) (k : nat) :
  (wait_timeout (self s) <= timeout_max E)%Z ->
  stop_requested E (n_observe s + k) = true ->
  k + 1 < 2 * fuel ->
  exists s' delta,
    _monitor_loop E fuel s = (Ok Returned, s')
    /\ stop_event (self s') = true
    /\ trace s' = trace s ++ delta
    /\ 2 * cycle_starts delta <= k + 1
    /\ 2 * waits delta <= k + 1.
Proof. apply loop_returns_after_request. Qed.

Lemma loop_returns_once_stop_is_requested_witness :
  (wait_timeout (self Sample.started)
   <= timeout_max Sample.flaky_then_stopped)%Z
  /\ stop_requested Sample.flaky_then_stopped (n_observe Sample.started + 3) = true
  /\ 3 + 1 < 2 * 5
  /\ exists s' delta,
       _monitor_loop Sample.flaky_then_stopped 5 Sample.started = (Ok Returned, s')
       /\ stop_event (self s') = true
       /\ trace s' = trace Sample.started ++ delta
       /\ 2 * cycle_starts delta <= 3 + 1
       /\ 2 * waits delta <= 3 + 1.
Proof.
  assert (H0 : (wait_timeout (self Sample.started)
                <= timeout_max Sample.flaky_then_stopped)%Z)
    by (vm_compute; discriminate).
  split; [exact H0|]. split; [reflexivity|]. split; [lia|].
  apply (loop_returns_once_stop_is_requested Sample.flaky_then_stopped 5
           Sample.started 3 H0); [reflexivity | lia].
Defined.

(** The bounds are reached: with the request at the fourth look the
    loop has begun two cycles and waited twice when it returns. *)
Example stop_request_cycle_counts :
  let late := snd (_monitor_loop Sample.flaky_then_stopped 5 Sample.started) in
  let res := fst (_monitor_loop Sample.flaky_then_stopped 5 Sample.started) in
  res = Ok Returned
  /\ cycle_starts (trace late) = 2 /\ waits (trace late) = 2.
Proof. vm_compute. repeat split. Qed.

(** ** More on [start] *)

Section StartMore.

Variable E : environment.


End StartMore.



(** X15. A failed initial check strands the monitor. When the cycle run
    inside [start(run_immediately=True)] raises, [start] raises that
    error, with [running] already set and no thread started: no loop
    runs, and every later [start] only reports that the monitor is
    already running and starts nothing, until [stop] is called. *)
Theorem failed_initial_check_leaves_running (E : environment)
    (s s1 : state) (e : exn) :
  running (self s) = false ->
  keywords (self s) <> [] ->
  domains (self s) <> [] ->
  check_all E (initial_check_begins s) = (Raise e, s1) ->
  start E true s = (Raise e, s1)
  /\ running (self s1) = true
  /\ thread (self s1) = thread (self s) /\ n_threads s1 = n_threads s
  /\ (forall fuel, start_then_loop E true fuel s = (Raise e, s1))
  /\ (forall run_immediately fuel,
        exists s2,
          start_then_loop E run_immediately fuel s1 = (Ok None, s2)
          /\ trace s2 = trace s1 ++ [EvPrint MsgAlreadyRunning]
          /\ n_threads s2 = n_threads s1 /\ collection s2 = collection s1).
Proof.
  intros Hidle Hk Hd Hcycle.
  destruct (check_all_one_cycle E _ _ _ Hcycle) as (Self1 & _ & N1 & _).
  assert (Hstart : start E true s = (Raise e, s1)).
  { rewrite (start_unfold E s Hidle Hk Hd). unfold bind at 1. now rewrite Hcycle. }
  assert (Hrun : running (self s1) = true) by (rewrite Self1; reflexivity).
  split; [exact Hstart|]. split; [exact Hrun|].
  split; [rewrite Self1; reflexivity|]. split; [rewrite N1; reflexivity|]. split.
  - intros fuel. unfold start_then_loop. unfold bind at 1, gets at 1.
    unfold bind at 1. now rewrite Hstart.
  - intros run_immediately fuel. unfold start_then_loop, start. run_monad.
    rewrite Hrun. simpl. rewrite Nat.ltb_irrefl.
    eexists. split; [reflexivity|]. repeat split.
Qed.

Lemma failed_initial_check_leaves_running_witness :
  let E := Sample.store_down in
  let s := Sample.configured ["k"] ["d.com"] in
  let first := check_all E (initial_check_begins s) in
  running (self s) = false
  /\ keywords (self s) <> [] /\ domains (self s) <> []
  /\ first = (Raise (PersistenceError "not primary"), snd first)
  /\ start E true s = (Raise (PersistenceError "not primary"), snd first)
  /\ running (self (snd first)) = true
  /\ n_threads (snd first) = n_threads s.
Proof.
  intros E s first.
  assert (H1 : running (self s) = false) by reflexivity.
  assert (H2 : keywords (self s) <> []) by discriminate.
  assert (H3 : domains (self s) <> []) by discriminate.
  assert (H4 : first = (Raise (PersistenceError "not primary"), snd first))
    by (vm_compute; reflexivity).
  split; [exact H1|]. split; [exact H2|]. split; [exact H3|]. split; [exact H4|].
  destruct (failed_initial_check_leaves_running E s (snd first) _ H1 H2 H3 H4)
    as (A & B & _ & C & _).
  split; [exact A|]. split; [exact B | exact C].
Defined.

(** ** An empty domain *)

Lemma str_contains_empty (hay : string) : str_contains "" hay = true.
Proof. destruct hay; reflexivity. Qed.

Lemma scan_results_empty_domain (results : response) (sp : gmap string value)
    (pre post : list (gmap string value)) (r : gmap string value)
    (lnk : string) (s : state) :
  Forall (fun r' => r' !! "link" = None) pre ->
  r !! "link" = Some (VStr lnk) ->
  fst (scan_results "" results sp (pre ++ r :: post) s)
  = Ok (found_data results sp r).
Proof.
  intros Hpre Hlnk. induction Hpre as [|r' pre Hr' Hpre IH]; simpl.
  - rewrite Hlnk. simpl. rewrite str_contains_empty. reflexivity.
  - rewrite Hr'. exact IH.
Qed.

(** X4. The empty string occurs in every string, so an empty domain
    matches any link: [check_domain_ranking] with domain [""] reports
    as found the first organic result that has a link at all, whatever
    site it is on. *)
Theorem empty_domain_matches_first_link (E : environment) (keyword : string)
    (s : state) (resp : response) (pre post : list (gmap string value))
    (r : gmap string value) (lnk : string) :
  serp_api E (n_search s) (search_request (self s) keyword) = Ok resp ->
  organic_results resp = Some (pre ++ r :: post) ->
  Forall (fun r' => r' !! "link" = None) pre ->
  r !! "link" = Some (VStr lnk) ->
  exists rd,
    fst (check_domain_ranking E keyword "" s) = Ok rd
    /\ found rd = true /\ link rd = VStr lnk
    /\ position rd = py_get r "position".
Proof.
  intros Hresp Horg Hpre Hlnk.
  exists (found_data resp (search_params (self s)) r).
  split; [|simpl; repeat split; unfold py_get; now rewrite Hlnk].
  unfold check_domain_ranking.
  destruct (search_keyword_ok E keyword
              (snd (print (MsgChecking keyword "") s)) resp Hresp)
    as (s1 & Hs1 & Hself1 & _).
  unfold bind at 1. simpl. unfold bind at 1. simpl in Hs1. rewrite Hs1.
  unfold bind at 1, gets at 1.
  assert (Hne : resp_is_empty resp = false)
    by (unfold resp_is_empty; now rewrite Horg).
  rewrite Hne, Horg. rewrite bool_decide_eq_true_2 by eauto. simpl.
  rewrite Hself1. simpl.
  eapply scan_results_empty_domain; eassumption.
Qed.

Lemma empty_domain_matches_first_link_witness :
  let s := Sample.configured ["k"] [""] in
  serp_api Sample.healthy (n_search s) (search_request (self s) "k")
    = Ok (Sample.two_results 3)
  /\ exists rd,
       fst (check_domain_ranking Sample.healthy "k" "" s) = Ok rd
       /\ found rd = true /\ link rd = VStr "https://other.org/"
       /\ position rd = VInt 1.
Proof.
  intros s.
  assert (H1 : serp_api Sample.healthy (n_search s) (search_request (self s) "k")
               = Ok (Sample.two_results 3)) by reflexivity.
  split; [exact H1|].
  exact (empty_domain_matches_first_link Sample.healthy "k" s
           (Sample.two_results 3) []
           [<["link" := VStr "https://d.com/x"]> (<["position" := VInt 3]> ∅)]
           (<["link" := VStr "https://other.org/"]> (<["position" := VInt 1]> ∅))
           "https://other.org/" H1 eq_refl (List.Forall_nil _) eq_refl).
Defined.
